(** * email_checker_app: the per-address verdict engine

    A shallow embedding of [src/email_checker_app.py]: the domain cache
    [checked_domains], the SMTP catch-all probe [is_catch_all], the DNS test
    [has_mx_record] and the decision procedure [check_email], together with
    the sequential loop of the user interface that feeds addresses to
    [check_email] one after the other.

    The program talks to three things it does not own: the [email_validator]
    package, the DNS resolver and an SMTP server.  They are taken as an
    environment [Env]: every call receives the current state of the outside
    world and returns an answer and the next state of the world, so that two
    calls with the same arguments may be answered differently.  Every network
    call is recorded, with its answer, in a trace.

    Python strings are modelled by [string]; a character stands for the code
    point of the same number, so the model covers the code points below 256. *)

From Stdlib Require Import ZArith Ascii String.
From stdpp Require Import gmap strings list.

Local Open Scope string_scope.
Local Open Scope list_scope.
Local Open Scope Z_scope.

(** ** The string methods the program uses *)

Module PyStr.

(** [str.isspace] on the code points below 256. *)
Definition isspace (c : ascii) : bool :=
  let n := nat_of_ascii c in
  ((9 <=? n)%nat && (n <=? 13)%nat)
  || ((28 <=? n)%nat && (n <=? 32)%nat)
  || (n =? 133)%nat || (n =? 160)%nat.

Fixpoint lstrip_with (p : ascii -> bool) (s : string) : string :=
  match s with
  | EmptyString => EmptyString
  | String c s' => if p c then lstrip_with p s' else s
  end.

Fixpoint rstrip_with (p : ascii -> bool) (s : string) : string :=
  match s with
  | EmptyString => EmptyString
  | String c s' =>
      match rstrip_with p s' with
      | EmptyString => if p c then EmptyString else String c EmptyString
      | r => String c r
      end
  end.

Definition strip_with (p : ascii -> bool) (s : string) : string :=
  rstrip_with p (lstrip_with p s).

(** [s.strip()] *)
Definition strip (s : string) : string := strip_with isspace s.

Fixpoint mem (c : ascii) (chars : string) : bool :=
  match chars with
  | EmptyString => false
  | String d chars' => Ascii.eqb c d || mem c chars'
  end.

(** [s.strip(chars)] *)
Definition strip_chars (chars : string) (s : string) : string :=
  strip_with (fun c => mem c chars) s.

(** [s.replace(c, '')] for a one-character [c]. *)
Fixpoint replace_empty (c : ascii) (s : string) : string :=
  match s with
  | EmptyString => EmptyString
  | String d s' =>
      if Ascii.eqb d c then replace_empty c s' else String d (replace_empty c s')
  end.

(** [str.lower] on the code points below 256: the ASCII capitals and the
    Latin-1 capitals U+00C0..U+00DE (U+00D7, the multiplication sign, is not
    a letter) move up by 32. *)
Definition lower_char (c : ascii) : ascii :=
  let n := nat_of_ascii c in
  if ((65 <=? n)%nat && (n <=? 90)%nat)
     || ((192 <=? n)%nat && (n <=? 222)%nat && negb (n =? 215)%nat)
  then ascii_of_nat (n + 32) else c.

Fixpoint lower (s : string) : string :=
  match s with
  | EmptyString => EmptyString
  | String c s' => String (lower_char c) (lower s')
  end.

(** [s[i]] for an index in range ([None] out of range). *)
Definition get (i : nat) (s : string) : option ascii := String.get i s.

End PyStr.

(** ** Values, records and events *)

(** The values [is_catch_all] stores and returns: a string or a boolean. *)
Inductive PyVal : Type :=
| PyBool (b : bool)
| PyStr (s : string).

(** [v == w] on these values; a boolean never equals a string. *)
Definition py_eq (v w : PyVal) : bool :=
  match v, w with
  | PyBool a, PyBool b => Bool.eqb a b
  | PyStr a, PyStr b => String.eqb a b
  | _, _ => false
  end.

(** Truth value of [v] in an [if]. *)
Definition truthy (v : PyVal) : bool :=
  match v with
  | PyBool b => b
  | PyStr s => negb (String.eqb s "")
  end.

(** One MX record of a DNS answer. *)
Record MxRecord : Type := { preference : Z; exchange : string }.

(** The dictionary [check_email] returns. *)
Record Verdict : Type := {
  email : string;
  validation_status : string;
  validation_analysis : string
}.

(** The module's two static sets. *)
Record Globals : Type := {
  DISPOSABLE_DOMAINS : gset string;
  TYPO_DOMAINS : gset string
}.

Definition module_globals : Globals := {|
  DISPOSABLE_DOMAINS :=
    {[ "mailinator.com"; "10minutemail.com"; "tempmail.com"; "yopmail.com" ]};
  TYPO_DOMAINS := {[ "gamil.com"; "yaho.com"; "hotnail.com" ]}
|}.

(** A network call with its answer.  [None] and [false] stand for a raised
    exception. *)
Inductive Event : Type :=
| EvResolve (qname : string) (answer : option (list MxRecord))
| EvConnect (host : string) (ok : bool)
| EvHelo (name : string) (ok : bool)
| EvMail (sender : string) (ok : bool)
| EvRcpt (recipient : string) (reply : option Z)
| EvQuit (ok : bool).

(** The outside world, as the program sees it. *)
Record Env (W : Type) : Type := {
  (** [validate_email(email, check_deliverability=False)['domain']], or
      [None] when [EmailNotValidError] is raised; no network call. *)
  validate_email : string -> option string;
  (** [dns.resolver.resolve(domain, 'MX')] *)
  dns_resolve : W -> string -> option (list MxRecord) * W;
  (** [server.connect(host)], [server.helo(name)], [server.mail(sender)] *)
  smtp_connect : W -> string -> bool * W;
  smtp_helo : W -> string -> bool * W;
  smtp_mail : W -> string -> bool * W;
  (** [server.rcpt(recipient)]: the reply code *)
  smtp_rcpt : W -> string -> option Z * W;
  (** [server.quit()] *)
  smtp_quit : W -> bool * W;
  (** one draw of the random generator *)
  random_draw : W -> nat * W
}.

Arguments validate_email {W} _ _.
Arguments dns_resolve {W} _ _ _.
Arguments smtp_connect {W} _ _ _.
Arguments smtp_helo {W} _ _ _.
Arguments smtp_mail {W} _ _ _.
Arguments smtp_rcpt {W} _ _ _.
Arguments smtp_quit {W} _ _.
Arguments random_draw {W} _ _.

(** The state of a run: the world, the cache and the trace of network calls. *)
Record State (W : Type) : Type := {
  world : W;
  checked_domains : gmap string PyVal;
  trace : list Event
}.

Arguments world {W} _.
Arguments checked_domains {W} _.
Arguments trace {W} _.

(** The state at the start of a run: [checked_domains = {}]. *)
Definition initial_state {W : Type} (w : W) : State W :=
  {| world := w; checked_domains := ∅; trace := [] |}.

(** ** The program *)

Section Program.

Context {W : Type}.
Variable env : Env W.

(** A statement that may raise: [None] is a raised exception. *)
Definition M (A : Type) : Type := State W -> option A * State W.

Definition ret {A : Type} (a : A) : M A := fun st => (Some a, st).

Definition bind {A B : Type} (m : M A) (k : A -> M B) : M B :=
  fun st =>
    match m st with
    | (Some a, st') => k a st'
    | (None, st') => (None, st')
    end.

Notation "'let!' x ':=' m 'in' k" := (bind m (fun x => k))
  (at level 10, x name, m at level 100, k at level 200).
Notation "'exec' m 'in' k" := (bind m (fun _ => k))
  (at level 10, m at level 100, k at level 200).

(** A call to the world, recorded in the trace. *)
Definition call {A R : Type} (f : W -> R * W) (ev : R -> Event)
    (res : R -> option A) : M A :=
  fun st =>
    let '(r, w) := f (world st) in
    (res r, {| world := w;
               checked_domains := checked_domains st;
               trace := trace st ++ [ev r] |}).

Definition raise_unless (ok : bool) : option unit :=
  if ok then Some tt else None.

Definition resolve (domain : string) : M (list MxRecord) :=
  call (fun w => dns_resolve env w domain) (EvResolve domain) id.

Definition connect (host : string) : M unit :=
  call (fun w => smtp_connect env w host) (EvConnect host) raise_unless.

Definition helo (name : string) : M unit :=
  call (fun w => smtp_helo env w name) (EvHelo name) raise_unless.

Definition mail (sender : string) : M unit :=
  call (fun w => smtp_mail env w sender) (EvMail sender) raise_unless.

Definition rcpt (recipient : string) : M Z :=
  call (fun w => smtp_rcpt env w recipient) (EvRcpt recipient) id.

Definition quit : M unit :=
  call (smtp_quit env) EvQuit raise_unless.

(** [string.ascii_lowercase + string.digits] *)
Definition alphabet : string := "abcdefghijklmnopqrstuvwxyz0123456789".

(** [''.join(random.choices(population, k=k))]: [k] draws, each picks one
    character of the population. *)
Fixpoint choices (population : string) (k : nat) (w : W) : string * W :=
  match k with
  | O => (EmptyString, w)
  | S k' =>
      let '(n, w1) := random_draw env w in
      let c := default "a"%char
                 (PyStr.get (n mod String.length population) population) in
      let '(s, w2) := choices population k' w1 in
      (String c s, w2)
  end.

Definition random_choices (population : string) (k : nat) : M string :=
  fun st =>
    let '(s, w) := choices population k (world st) in
    (Some s, {| world := w;
                checked_domains := checked_domains st;
                trace := trace st |}).

(** [checked_domains[domain] = v] *)
Definition store (domain : string) (v : PyVal) (st : State W) : State W :=
  {| world := world st;
     checked_domains := <[domain := v]> (checked_domains st);
     trace := trace st |}.

(** The body of the [try] of [is_catch_all].  [inl v]: the [return v]
    inside the [try] was executed (the cache is already written);
    [inr result]: the body ran to its end with the local [result]. *)
Definition is_catch_all_try (domain : string) : M (PyVal + PyVal) :=
  let! mx_records := resolve domain in
  match mx_records with
  | [] => fun st => (Some (inl (PyBool false)), store domain (PyBool false) st)
  | mx0 :: _ =>
      let mail_server := PyStr.strip_chars "." (exchange mx0) in
      exec connect mail_server in
      exec helo "test.local" in
      exec mail ("test@" +:+ domain) in
      let! fake_user := random_choices alphabet 24 in
      let! code := rcpt (fake_user +:+ "@" +:+ domain) in
      exec quit in
      let result :=
        if code =? 250 then PyStr "maybe"
        else if code =? 550 then PyBool false
        else PyBool false in
      ret (inr result)
  end.

Definition is_catch_all (domain : string) (st : State W) : PyVal * State W :=
  match checked_domains st !! domain with
  | Some v => (v, st)
  | None =>
      match is_catch_all_try domain st with
      | (Some (inl v), st') => (v, st')
      | (Some (inr result), st') => (result, store domain result st')
      | (None, st') => (PyBool false, store domain (PyBool false) st')
      end
  end.

Definition has_mx_record (domain : string) (st : State W) : bool * State W :=
  match resolve domain st with
  | (Some _, st') => (true, st')
  | (None, st') => (false, st')
  end.

Variable g : Globals.

Definition verdict (email status analysis : string) : Verdict :=
  {| email := email;
     validation_status := status;
     validation_analysis := analysis |}.

Definition check_email (raw : string) (st : State W) : Verdict * State W :=
  let email := PyStr.replace_empty ";" (PyStr.strip raw) in
  match validate_email env email with
  | None => (verdict email "Do Not Send" "Invalid Syntax", st)
  | Some valid_domain =>
      let domain := PyStr.lower valid_domain in
      let '(has_mx, st1) := has_mx_record domain st in
      if negb has_mx then (verdict email "Do Not Send" "No MX", st1)
      else if bool_decide (domain ∈ DISPOSABLE_DOMAINS g)
      then (verdict email "Do Not Send" "Disposable", st1)
      else
        let '(r1, st2) := is_catch_all domain st1 in
        if py_eq r1 (PyStr "maybe")
        then (verdict email "Do Not Send" "Catch-All", st2)
        else
          let '(r2, st3) := is_catch_all domain st2 in
          if truthy r2
          then (verdict email "Do Not Send" "Catch-All", st3)
          else (verdict email "Okay to Send" "Accepted", st3)
  end.

(** The loop of the user interface: the addresses are checked one after the
    other and each result is appended to [checked_results]. *)
Fixpoint run_batch (emails : list string) (checked_results : list Verdict)
    (st : State W) : list Verdict * State W :=
  match emails with
  | [] => (checked_results, st)
  | e :: emails' =>
      let '(result, st') := check_email e st in
      run_batch emails' (checked_results ++ [result]) st'
  end.

End Program.

(** ** A scripted world for the examples

    The world is the number of calls answered so far.  The DNS table, the
    reply of the server to the recipient command and the success of each
    other command are fixed by the script. *)

Module Sample.

Fixpoint count_at (s : string) : nat :=
  match s with
  | EmptyString => O
  | String c s' => ((if Ascii.eqb c "@" then 1 else 0) + count_at s')%nat
  end.

Fixpoint after_at (s : string) : string :=
  match s with
  | EmptyString => EmptyString
  | String c s' => if Ascii.eqb c "@" then s' else after_at s'
  end.

Fixpoint has_space (s : string) : bool :=
  match s with
  | EmptyString => false
  | String c s' => PyStr.isspace c || has_space s'
  end.

(** A stand-in for the validator: exactly one [@], something on both sides
    of it and no white space. *)
Definition validate (s : string) : option string :=
  let d := after_at s in
  if (count_at s =? 1)%nat && negb (has_space s)
     && negb (String.eqb d "")
     && negb (String.length s =? S (String.length d))%nat
  then Some d else None.

Record Script : Type := {
  dns : string -> option (list MxRecord);
  connect_ok : bool;
  helo_ok : bool;
  mail_ok : bool;
  reply : option Z;
  quit_ok : bool
}.

Definition scripted (sc : Script) : Env nat := {|
  validate_email := validate;
  dns_resolve := fun w d => (dns sc d, S w);
  smtp_connect := fun w _ => (connect_ok sc, S w);
  smtp_helo := fun w _ => (helo_ok sc, S w);
  smtp_mail := fun w _ => (mail_ok sc, S w);
  smtp_rcpt := fun w _ => (reply sc, S w);
  smtp_quit := fun w => (quit_ok sc, S w);
  random_draw := fun w => (w, S w)
|}.

(** Every domain has the two records below, the less preferred one first. *)
Definition two_records : list MxRecord :=
  [ {| preference := 20; exchange := "mx2.example." |};
    {| preference := 10; exchange := "mx1.example." |} ].

Definition answering (code : option Z) (quit_ok : bool) : Script := {|
  dns := fun _ => Some two_records;
  connect_ok := true; helo_ok := true; mail_ok := true;
  reply := code; quit_ok := quit_ok
|}.

Definition no_dns : Script := {|
  dns := fun _ => None;
  connect_ok := true; helo_ok := true; mail_ok := true;
  reply := Some 550; quit_ok := true
|}.

(** The start of a run in the scripted world. *)
Definition start : State nat := initial_state 0%nat.

(** A server that answers the recipient command with [code]. *)
Definition server (code : Z) : Env nat :=
  scripted (answering (Some code) true).

End Sample.

(** ** What a trace shows *)

(** [email.strip().replace(';', '')], the first statement of [check_email]. *)
Definition cleaned (raw : string) : string :=
  PyStr.replace_empty ";" (PyStr.strip raw).

(** The call raised. *)
Definition ev_failed (e : Event) : bool :=
  match e with
  | EvResolve _ None | EvRcpt _ None => true
  | EvConnect _ false | EvHelo _ false | EvMail _ false | EvQuit false => true
  | _ => false
  end.

Definition raised (evs : list Event) : bool := existsb ev_failed evs.

(** The reply codes of the recipient commands, in order. *)
Definition rcpt_codes (evs : list Event) : list Z :=
  omap (fun e => match e with EvRcpt _ (Some c) => Some c | _ => None end) evs.

(** The names asked to the resolver, in order. *)
Definition resolves (evs : list Event) : list string :=
  omap (fun e => match e with EvResolve d _ => Some d | _ => None end) evs.

(** The hosts a connection was opened to, in order. *)
Definition connects (evs : list Event) : list string :=
  omap (fun e => match e with EvConnect h _ => Some h | _ => None end) evs.

(** The calls made to the SMTP server. *)
Definition is_smtp (e : Event) : bool :=
  match e with EvResolve _ _ => false | _ => true end.

Definition smtp_events (evs : list Event) : list Event :=
  List.filter is_smtp evs.

(** The value [is_catch_all] computes, read off the calls of one probe:
    ['maybe'] when nothing raised and the recipient command was answered 250,
    [False] otherwise. *)
Definition probe_value (evs : list Event) : PyVal :=
  if raised evs then PyBool false
  else match rcpt_codes evs with
       | [c] => if c =? 250 then PyStr "maybe" else PyBool false
       | _ => PyBool false
       end.

(** Every entry of the cache is [False] or ['maybe'], and a ['maybe'] for a
    domain is backed by a recipient command for that domain answered 250. *)
Definition cache_justified {W : Type} (st : State W) : Prop :=
  forall (d : string) (v : PyVal),
    checked_domains st !! d = Some v ->
    v = PyBool false \/
    (v = PyStr "maybe" /\
     exists fake : string, EvRcpt (fake +:+ "@" +:+ d) (Some 250) ∈ trace st).

(** ** The lowest preference, as the specification words it *)

(** The record with the lowest preference value, the earliest one among
    equals. *)
Fixpoint spec_lowest_preference (records : list MxRecord) : option MxRecord :=
  match records with
  | [] => None
  | r :: records' =>
      match spec_lowest_preference records' with
      | Some r' => if preference r' <? preference r then Some r' else Some r
      | None => Some r
      end
  end.

(** ** The rest of the script: icons and the two ways to enter addresses *)

(** [status_icon].  The icons lie outside the code points below 256; each
    literal is written as the bytes of its UTF-8 encoding.  The function only
    compares its argument with ASCII literals and joins strings, which the
    encoding preserves. *)
Definition status_icon (status : string) : string :=
  if String.eqb status "Okay to Send" then "🟢 " +:+ status
  else if String.eqb status "Do Not Send" then "🔴 " +:+ status
  else if String.eqb status "Maybe Send" then "🟠 " +:+ status
  else if String.eqb status "Checking..." then "🕐 " +:+ status
  else status.

(** [s.split(sep)] for a one-character [sep]: the pieces between the
    separators, empty pieces included; the empty string gives one empty
    piece. *)
Fixpoint py_split (sep : ascii) (s : string) : list string :=
  match s with
  | EmptyString => [EmptyString]
  | String c s' =>
      if Ascii.eqb c sep then EmptyString :: py_split sep s'
      else match py_split sep s' with
           | piece :: pieces => String c piece :: pieces
           | [] => [String c EmptyString]
           end
  end.

(** [sep.join(lines)] for a one-character [sep]: the text a user types when
    the lines are entered one below the other. *)
Fixpoint py_join (sep : ascii) (lines : list string) : string :=
  match lines with
  | [] => EmptyString
  | [line] => line
  | line :: lines' => line +:+ String sep (py_join sep lines')
  end.

(** A non-empty string is true in an [if]. *)
Definition nonempty (s : string) : bool := negb (String.eqb s "").

(** What the comprehension of the paste input makes of a list of lines. *)
Definition kept_lines (lines : list string) : list string :=
  List.map PyStr.strip
    (List.filter (fun line => nonempty (PyStr.strip line)) lines).

(** The "Paste Emails" input: [emails] stays [[]] unless [pasted.strip()] is
    non-empty, and is then
    [[line.strip() for line in pasted.strip().split('\n') if line.strip()]]. *)
Definition pasted_emails (pasted : string) : list string :=
  if nonempty (PyStr.strip pasted)
  then List.map PyStr.strip
         (List.filter (fun line => nonempty (PyStr.strip line))
            (py_split "010" (PyStr.strip pasted)))
  else [].

(** The "Upload CSV" input, from the column [df['email']] on: the cells are
    strings or missing ([None]);
    [.dropna().astype(str).str.replace(';', '', regex=False).str.strip().tolist()]. *)
Definition uploaded_emails (column : list (option string)) : list string :=
  List.map (fun cell => PyStr.strip (PyStr.replace_empty ";" cell))
    (omap id column).

(** A network call without its answer. *)
Inductive Command : Type :=
| CmdResolve (qname : string)
| CmdConnect (host : string)
| CmdHelo (name : string)
| CmdMail (sender : string)
| CmdRcpt (recipient : string)
| CmdQuit.

Definition command_of (e : Event) : Command :=
  match e with
  | EvResolve d _ => CmdResolve d
  | EvConnect h _ => CmdConnect h
  | EvHelo n _ => CmdHelo n
  | EvMail s _ => CmdMail s
  | EvRcpt r _ => CmdRcpt r
  | EvQuit _ => CmdQuit
  end.

(** The recipient commands sent, in order. *)
Definition rcpt_recipients (evs : list Event) : list string :=
  omap (fun e => match e with EvRcpt r _ => Some r | _ => None end) evs.

(** A [quit] was sent. *)
Definition quit_sent (evs : list Event) : bool :=
  existsb (fun e => match e with EvQuit _ => true | _ => false end) evs.

(** The status column of the final table. *)
Definition final_statuses (checked_results : list Verdict) : list string :=
  List.map status_icon (List.map validation_status checked_results).

(** ** Lemmas on the primitives *)

(** Closes the facts about the events of one path through a probe. *)
Ltac probe_facts :=
  split; [rewrite <- ?app_assoc; reflexivity|];
  unfold probe_value; simpl;
  repeat match goal with |- context [Z.eqb ?c ?k] => destruct (Z.eqb c k) end;
  split_and!; try done; try (simpl; lia);
  let r := fresh "r" in
  let c := fresh "c" in
  let Hin := fresh "Hin" in
  intros r c Hin;
  repeat (apply elem_of_cons in Hin as [Hin|Hin]; [try discriminate|]);
  [..|by apply elem_of_nil in Hin];
  injection Hin as -> _; eexists; reflexivity.

Arguments choices : simpl never.

Section Lemmas.

Context {W : Type}.
Variable env : Env W.

Lemma call_eq {A R : Type} (f : W -> R * W) (ev : R -> Event)
    (res : R -> option A) (st : State W) :
  call f ev res st =
    (res (f (world st)).1,
     {| world := (f (world st)).2;
        checked_domains := checked_domains st;
        trace := trace st ++ [ev (f (world st)).1] |}).
Proof. unfold call. destruct (f (world st)); reflexivity. Qed.

Lemma has_mx_record_eq (d : string) (st : State W) :
  has_mx_record env d st =
    (bool_decide (is_Some (dns_resolve env (world st) d).1),
     {| world := (dns_resolve env (world st) d).2;
        checked_domains := checked_domains st;
        trace := trace st ++ [EvResolve d (dns_resolve env (world st) d).1] |}).
Proof.
  unfold has_mx_record, resolve. rewrite call_eq. simpl.
  destruct (dns_resolve env (world st) d) as [[ans|] w]; reflexivity.
Qed.

Lemma is_catch_all_cached (d : string) (v : PyVal) (st : State W) :
  checked_domains st !! d = Some v -> is_catch_all env d st = (v, st).
Proof. intros H. unfold is_catch_all. rewrite H. reflexivity. Qed.

(** One probe of a domain that is not in the cache: the value returned is
    the one the calls of the probe show, it is stored under the domain, and
    the probe asks the resolver once, opens a connection to the first
    record of the answer and to no other host, and its recipient commands
    are for the domain. *)
Lemma is_catch_all_probe (d : string) (st : State W) :
  checked_domains st !! d = None ->
  exists evs : list Event,
    trace (is_catch_all env d st).2 = trace st ++ evs
    /\ (is_catch_all env d st).1 = probe_value evs
    /\ checked_domains (is_catch_all env d st).2
       = <[d := probe_value evs]> (checked_domains st)
    /\ resolves evs = [d]
    /\ connects evs
       = match (dns_resolve env (world st) d).1 with
         | Some (mx0 :: _) => [PyStr.strip_chars "." (exchange mx0)]
         | _ => []
         end
    /\ (forall (r : string) (c : Z), EvRcpt r (Some c) ∈ evs ->
          exists fake : string, r = fake +:+ "@" +:+ d).
Proof.
  intros Hnone. unfold is_catch_all. rewrite Hnone.
  unfold is_catch_all_try, bind, resolve, connect, helo, mail, rcpt, quit,
    random_choices, ret, call.
  destruct (dns_resolve env (world st) d) as [[[|mx0 rest]|] w1]; simpl.
  - exists [EvResolve d (Some [])]. probe_facts.
  - destruct (smtp_connect env w1 _) as [[|] w2]; simpl;
      [|eexists [_; _]; probe_facts].
    destruct (smtp_helo env w2 _) as [[|] w3]; simpl;
      [|eexists [_; _; _]; probe_facts].
    destruct (smtp_mail env w3 _) as [[|] w4]; simpl;
      [|eexists [_; _; _; _]; probe_facts].
    destruct (choices env alphabet 24 w4) as [fake w5]; simpl.
    destruct (smtp_rcpt env w5 _) as [[c|] w6]; simpl;
      [|eexists [_; _; _; _; _]; probe_facts].
    destruct (smtp_quit env w6) as [[|] w7]; simpl.
    + eexists [_; _; _; _; _; _]. probe_facts.
    + eexists [_; _; _; _; _; _]. probe_facts.
  - exists [EvResolve d None]. probe_facts.
Qed.

Lemma is_catch_all_stored (d : string) (st : State W) :
  checked_domains (is_catch_all env d st).2 !! d
  = Some (is_catch_all env d st).1.
Proof.
  destruct (checked_domains st !! d) as [v|] eqn:Hd.
  - rewrite (is_catch_all_cached _ _ _ Hd). exact Hd.
  - destruct (is_catch_all_probe d st Hd) as (evs & _ & -> & -> & _).
    apply lookup_insert_eq.
Qed.

Lemma is_catch_all_twice (d : string) (st : State W) :
  is_catch_all env d (is_catch_all env d st).2 = is_catch_all env d st.
Proof.
  rewrite (is_catch_all_cached _ _ _ (is_catch_all_stored d st)).
  symmetry. apply surjective_pairing.
Qed.

(** No call of [is_catch_all] removes or changes an entry of the cache. *)
Lemma is_catch_all_mono (d : string) (st : State W) :
  checked_domains st ⊆ checked_domains (is_catch_all env d st).2.
Proof.
  destruct (checked_domains st !! d) as [v|] eqn:Hd.
  - by rewrite (is_catch_all_cached _ _ _ Hd).
  - destruct (is_catch_all_probe d st Hd) as (evs & _ & _ & -> & _).
    by apply insert_subseteq.
Qed.

Lemma is_catch_all_trace (d : string) (st : State W) :
  exists evs : list Event,
    trace (is_catch_all env d st).2 = trace st ++ evs
    /\ resolves evs
       = match checked_domains st !! d with None => [d] | Some _ => [] end
    /\ (length (connects evs) <= 1)%nat.
Proof.
  destruct (checked_domains st !! d) as [v|] eqn:Hd.
  - rewrite (is_catch_all_cached _ _ _ Hd). exists []. simpl.
    split_and!; [by rewrite app_nil_r | done | lia].
  - destruct (is_catch_all_probe d st Hd) as (evs & Ht & _ & _ & Hr & Hc & _).
    exists evs. split_and!; [done..|]. rewrite Hc.
    destruct (dns_resolve env (world st) d).1 as [[|? ?]|]; simpl; lia.
Qed.

Lemma rcpt_codes_elem (c : Z) (evs : list Event) :
  c ∈ rcpt_codes evs -> exists r : string, EvRcpt r (Some c) ∈ evs.
Proof.
  unfold rcpt_codes. intros Hin. apply list_elem_of_omap in Hin.
  destruct Hin as ([ | | | |r [c'|]| ] & Hin & Heq); try discriminate.
  injection Heq as ->. by exists r.
Qed.

Lemma probe_value_cases (evs : list Event) :
  probe_value evs = PyBool false
  \/ (probe_value evs = PyStr "maybe"
      /\ raised evs = false /\ rcpt_codes evs = [250]).
Proof.
  unfold probe_value. destruct (raised evs); [by left|].
  destruct (rcpt_codes evs) as [|c [|c' cs]]; try by left.
  destruct (c =? 250) eqn:Hc; [|by left].
  apply Z.eqb_eq in Hc as ->. by right.
Qed.

Lemma cache_justified_trace (st st' : State W) (evs : list Event) :
  checked_domains st' = checked_domains st ->
  trace st' = trace st ++ evs ->
  cache_justified st -> cache_justified st'.
Proof.
  intros Hc Ht Hj d v Hd. rewrite Hc in Hd.
  destruct (Hj d v Hd) as [->|[-> [fake Hin]]]; [by left|right].
  split; [done|]. exists fake. rewrite Ht. apply elem_of_app. by left.
Qed.

Lemma is_catch_all_justified (d : string) (st : State W) :
  cache_justified st -> cache_justified (is_catch_all env d st).2.
Proof.
  intros Hj.
  destruct (checked_domains st !! d) as [v|] eqn:Hd.
  - by rewrite (is_catch_all_cached _ _ _ Hd).
  - destruct (is_catch_all_probe d st Hd)
      as (evs & Ht & _ & Hc & _ & _ & Hfor).
    intros k v Hk. rewrite Hc in Hk. rewrite Ht.
    destruct (decide (d = k)) as [<-|Hne].
    + rewrite lookup_insert_eq in Hk. injection Hk as <-.
      destruct (probe_value_cases evs) as [->|(-> & _ & Hcodes)]; [by left|].
      right. split; [done|].
      assert (250 ∈ rcpt_codes evs) as Hin by (rewrite Hcodes; set_solver).
      apply rcpt_codes_elem in Hin as [r Hin].
      destruct (Hfor r 250 Hin) as [fake ->].
      exists fake. apply elem_of_app. by right.
    + rewrite lookup_insert_ne in Hk by done.
      destruct (Hj k v Hk) as [->|[-> [fake Hin]]]; [by left|right].
      split; [done|]. exists fake. apply elem_of_app. by left.
Qed.

Lemma has_mx_record_justified (d : string) (st : State W) :
  cache_justified st -> cache_justified (has_mx_record env d st).2.
Proof.
  rewrite has_mx_record_eq. simpl.
  by apply (cache_justified_trace st _
              [EvResolve d (dns_resolve env (world st) d).1]).
Qed.

Variable g : Globals.

(** [check_email] with the second call of [is_catch_all] folded into the
    first: the second call finds the entry the first call has stored. *)
Lemma check_email_eq (raw : string) (st : State W) :
  check_email env g raw st =
    match validate_email env (cleaned raw) with
    | None => (verdict (cleaned raw) "Do Not Send" "Invalid Syntax", st)
    | Some valid_domain =>
        let d := PyStr.lower valid_domain in
        let m := has_mx_record env d st in
        if negb m.1 then (verdict (cleaned raw) "Do Not Send" "No MX", m.2)
        else if bool_decide (d ∈ DISPOSABLE_DOMAINS g)
        then (verdict (cleaned raw) "Do Not Send" "Disposable", m.2)
        else
          let p := is_catch_all env d m.2 in
          (if py_eq p.1 (PyStr "maybe") || truthy p.1
           then verdict (cleaned raw) "Do Not Send" "Catch-All"
           else verdict (cleaned raw) "Okay to Send" "Accepted", p.2)
    end.
Proof.
  unfold check_email, cleaned.
  destruct (validate_email env _) as [vd|]; [|done].
  destruct (has_mx_record env (PyStr.lower vd) st) as [[|] st1]; simpl; [|done].
  destruct (bool_decide _); [done|].
  pose proof (is_catch_all_twice (PyStr.lower vd) st1) as H2.
  destruct (is_catch_all env (PyStr.lower vd) st1) as [r1 st2]; simpl in *.
  destruct (py_eq r1 (PyStr "maybe")); simpl; [done|].
  rewrite H2. destruct (truthy r1); done.
Qed.

Lemma check_email_mono (raw : string) (st : State W) :
  checked_domains st ⊆ checked_domains (check_email env g raw st).2.
Proof.
  rewrite check_email_eq.
  destruct (validate_email env _) as [vd|]; [|done]. cbv zeta.
  assert (checked_domains (has_mx_record env (PyStr.lower vd) st).2
          = checked_domains st) as Hm by (by rewrite has_mx_record_eq).
  destruct (negb _); cbn [snd]; [by rewrite Hm|].
  destruct (bool_decide _); cbn [snd]; [by rewrite Hm|].
  rewrite <- Hm at 1. apply is_catch_all_mono.
Qed.

Lemma check_email_justified (raw : string) (st : State W) :
  cache_justified st -> cache_justified (check_email env g raw st).2.
Proof.
  intros Hj. rewrite check_email_eq.
  destruct (validate_email env _) as [vd|]; [|done]. cbv zeta.
  pose proof (has_mx_record_justified (PyStr.lower vd) st Hj) as Hm.
  destruct (negb _); cbn [snd]; [done|].
  destruct (bool_decide _); cbn [snd]; [done|].
  by apply is_catch_all_justified.
Qed.

Lemma run_batch_mono (emails : list string) (acc : list Verdict)
    (st : State W) :
  checked_domains st ⊆ checked_domains (run_batch env g emails acc st).2.
Proof.
  revert acc st. induction emails as [|e emails IH]; intros acc st; [done|].
  simpl. pose proof (check_email_mono e st) as Hm.
  destruct (check_email env g e st) as [r st']. simpl in Hm.
  etrans; [exact Hm | apply IH].
Qed.

Lemma run_batch_justified (emails : list string) (acc : list Verdict)
    (st : State W) :
  cache_justified st -> cache_justified (run_batch env g emails acc st).2.
Proof.
  revert acc st. induction emails as [|e emails IH]; intros acc st Hj; [done|].
  simpl. pose proof (check_email_justified e st Hj) as Hm.
  destruct (check_email env g e st) as [r st']. by apply IH.
Qed.

End Lemmas.

(** ** The claims *)

Section Claims.

Context {W : Type}.
Variable env : Env W.

Lemma smtp_events_resolve (evs : list Event) (d : string)
    (a : option (list MxRecord)) :
  smtp_events (evs ++ [EvResolve d a]) = smtp_events evs.
Proof.
  unfold smtp_events. rewrite List.filter_app. simpl. apply app_nil_r.
Qed.

Lemma disposable_lower (m : string) :
  m ∈ DISPOSABLE_DOMAINS module_globals -> PyStr.lower m = m.
Proof.
  unfold module_globals. simpl. rewrite !elem_of_union, !elem_of_singleton.
  intros [[[->| ->]| ->]| ->]; reflexivity.
Qed.

(** C7.  When the validator rejects the cleaned address, the verdict is
    Do Not Send / Invalid Syntax and the state is left as it was: the cache
    is not touched and no call to the resolver or to an SMTP server is
    made. *)
Theorem C7_invalid_syntax (g : Globals) (raw : string) (st : State W) :
  validate_email env (cleaned raw) = None ->
  check_email env g raw st
  = (verdict (cleaned raw) "Do Not Send" "Invalid Syntax", st).
Proof. intros Hv. rewrite check_email_eq, Hv. reflexivity. Qed.

(** C6.  When the validator accepts the address and the MX query for its
    domain raises, the verdict is Do Not Send / No MX; that query is the
    only call made, so no SMTP server is contacted and the cache is not
    touched. *)
Theorem C6_no_mail_exchange (g : Globals) (raw d0 : string) (st : State W) :
  validate_email env (cleaned raw) = Some d0 ->
  (dns_resolve env (world st) (PyStr.lower d0)).1 = None ->
  check_email env g raw st
  = (verdict (cleaned raw) "Do Not Send" "No MX",
     {| world := (dns_resolve env (world st) (PyStr.lower d0)).2;
        checked_domains := checked_domains st;
        trace := trace st ++ [EvResolve (PyStr.lower d0) None] |})
  /\ smtp_events (trace (check_email env g raw st).2)
     = smtp_events (trace st).
Proof.
  intros Hv Hd.
  assert (check_email env g raw st
          = (verdict (cleaned raw) "Do Not Send" "No MX",
             {| world := (dns_resolve env (world st) (PyStr.lower d0)).2;
                checked_domains := checked_domains st;
                trace := trace st ++ [EvResolve (PyStr.lower d0) None] |}))
    as Heq.
  { rewrite check_email_eq, Hv. cbv zeta.
    rewrite has_mx_record_eq, Hd. reflexivity. }
  split; [exact Heq|]. rewrite Heq. apply smtp_events_resolve.
Qed.

(** C5.  When the validator accepts the address, the MX query for its
    domain is answered and the domain equals, letter case apart, a member
    of the disposable set, the verdict is Do Not Send / Disposable; the MX
    query of [has_mx_record] is the only call made, so no SMTP server is
    contacted and the cache is not touched. *)
Theorem C5_disposable (raw d0 : string) (st : State W) :
  validate_email env (cleaned raw) = Some d0 ->
  (has_mx_record env (PyStr.lower d0) st).1 = true ->
  (exists m : string,
      m ∈ DISPOSABLE_DOMAINS module_globals
      /\ PyStr.lower d0 = PyStr.lower m) ->
  check_email env module_globals raw st
  = (verdict (cleaned raw) "Do Not Send" "Disposable",
     (has_mx_record env (PyStr.lower d0) st).2)
  /\ smtp_events (trace (check_email env module_globals raw st).2)
     = smtp_events (trace st)
  /\ checked_domains (check_email env module_globals raw st).2
     = checked_domains st.
Proof.
  intros Hv Hmx (m & Hm & Hlow).
  rewrite (disposable_lower m Hm) in Hlow.
  assert (check_email env module_globals raw st
          = (verdict (cleaned raw) "Do Not Send" "Disposable",
             (has_mx_record env (PyStr.lower d0) st).2)) as Heq.
  { rewrite check_email_eq, Hv. cbv zeta. rewrite Hmx. cbn [negb].
    rewrite bool_decide_eq_true_2; [reflexivity|]. by rewrite Hlow. }
  split; [exact Heq|]. rewrite Heq. cbn [snd].
  rewrite has_mx_record_eq. cbn [snd trace checked_domains].
  split; [apply smtp_events_resolve | reflexivity].
Qed.

(** The disposable test is an exact match on the lower-cased domain: an
    address is called Disposable only when its lower-cased domain is a
    member of the set (a subdomain of a member is not). *)
Lemma disposable_only_members (g : Globals) (raw : string) (st : State W) :
  validation_analysis (check_email env g raw st).1 = "Disposable" ->
  exists d0 : string,
    validate_email env (cleaned raw) = Some d0
    /\ PyStr.lower d0 ∈ DISPOSABLE_DOMAINS g.
Proof.
  rewrite check_email_eq.
  destruct (validate_email env _) as [vd|]; [|discriminate]. cbv zeta.
  destruct (negb _); [discriminate|].
  case_bool_decide as Hin; [intros _; by exists vd|].
  cbn [fst]. destruct (_ || _); discriminate.
Qed.

(** C9.  Replacing the typo set by any other set changes neither the
    verdict nor the state [check_email] returns, for one address and for a
    whole batch. *)
Theorem C9_typo_set_unused (g : Globals) (typos : gset string)
    (raw : string) (emails : list string) (acc : list Verdict)
    (st : State W) :
  let g' := {| DISPOSABLE_DOMAINS := DISPOSABLE_DOMAINS g;
               TYPO_DOMAINS := typos |} in
  check_email env g' raw st = check_email env g raw st
  /\ run_batch env g' emails acc st = run_batch env g emails acc st.
Proof.
  intros g'.
  assert (forall r s, check_email env g' r s = check_email env g r s) as Hc
    by reflexivity.
  split; [apply Hc|].
  revert acc st. induction emails as [|e emails IH]; intros acc st; [done|].
  simpl. rewrite Hc. destruct (check_email env g e st) as [r st']. apply IH.
Qed.

(** C4.  A second call of [is_catch_all] for a domain returns what the
    first call returned and leaves the state as it was, so it makes no
    network call; the two calls together ask the resolver once when the
    domain was not in the cache (and never when it was) and open at most
    one connection.  No call of [is_catch_all] and no batch of addresses
    removes or changes an entry of the cache, so the domain is still
    answered from the cache, without a network call, after any batch. *)
Theorem C4_cache_idempotent (g : Globals) (d : string) (st : State W)
    (emails : list string) (acc : list Verdict) :
  let p1 := is_catch_all env d st in
  let p2 := is_catch_all env d p1.2 in
  let rest := run_batch env g emails acc p1.2 in
  p2 = p1
  /\ (exists evs : list Event,
        trace p2.2 = trace st ++ evs
        /\ resolves evs
           = match checked_domains st !! d with
             | None => [d]
             | Some _ => []
             end
        /\ (length (connects evs) <= 1)%nat)
  /\ checked_domains st ⊆ checked_domains p1.2
  /\ checked_domains p1.2 ⊆ checked_domains rest.2
  /\ is_catch_all env d rest.2 = (p1.1, rest.2).
Proof.
  intros p1 p2 rest.
  assert (p2 = p1) as H2 by apply is_catch_all_twice.
  split_and!.
  - exact H2.
  - rewrite H2. apply is_catch_all_trace.
  - apply is_catch_all_mono.
  - apply run_batch_mono.
  - apply is_catch_all_cached.
    eapply lookup_weaken; [apply is_catch_all_stored | apply run_batch_mono].
Qed.

(** The address recorded in the verdict is the cleaned string. *)
Lemma check_email_email (g : Globals) (raw : string) (st : State W) :
  email (check_email env g raw st).1 = cleaned raw.
Proof.
  rewrite check_email_eq.
  destruct (validate_email env _) as [vd|]; [|done]. cbv zeta.
  destruct (negb _); [done|]. destruct (bool_decide _); [done|].
  cbn [fst]. by destruct (_ || _).
Qed.

(** The cleaned string holds no semicolon. *)
Lemma cleaned_no_semicolon (raw : string) :
  PyStr.mem ";" (cleaned raw) = false.
Proof.
  unfold cleaned. induction (PyStr.strip raw) as [|c s IH]; [done|].
  cbn [PyStr.replace_empty]. destruct (Ascii.eqb c ";") eqn:Hc; [exact IH|].
  cbn [PyStr.mem]. rewrite Ascii.eqb_sym, Hc. exact IH.
Qed.

Lemma initial_justified (w : W) : cache_justified (initial_state w).
Proof. intros d v Hd. simpl in Hd. by rewrite lookup_empty in Hd. Qed.

(** The path of [check_email] through the probe: the address is accepted
    by the validator, the MX query of [has_mx_record] is answered and the
    domain is not disposable.  The first new call is that query; [v] is the
    value of [is_catch_all], taken from the cache or from the calls [evs]
    of a probe. *)
Lemma check_email_probe_path (g : Globals) (raw d0 : string)
    (st : State W) :
  validate_email env (cleaned raw) = Some d0 ->
  (has_mx_record env (PyStr.lower d0) st).1 = true ->
  PyStr.lower d0 ∉ DISPOSABLE_DOMAINS g ->
  exists (a : list MxRecord) (evs : list Event) (v : PyVal),
    trace (check_email env g raw st).2
    = trace st ++ EvResolve (PyStr.lower d0) (Some a) :: evs
    /\ (check_email env g raw st).1
       = (if py_eq v (PyStr "maybe") || truthy v
          then verdict (cleaned raw) "Do Not Send" "Catch-All"
          else verdict (cleaned raw) "Okay to Send" "Accepted")
    /\ checked_domains (check_email env g raw st).2 !! PyStr.lower d0
       = Some v
    /\ match checked_domains st !! PyStr.lower d0 with
       | Some c => v = c /\ evs = []
       | None => v = probe_value evs
       end.
Proof.
  intros Hv Hmx Hnd. rewrite check_email_eq, Hv. cbv zeta.
  rewrite Hmx. cbn [negb]. rewrite bool_decide_eq_false_2 by done.
  cbn [fst snd]. set (d := PyStr.lower d0) in *.
  rewrite has_mx_record_eq in Hmx. cbn [fst] in Hmx.
  apply bool_decide_eq_true_1 in Hmx as [a Ha].
  assert (trace (has_mx_record env d st).2
          = trace st ++ [EvResolve d (Some a)]) as Ht1
    by (by rewrite has_mx_record_eq, Ha).
  assert (checked_domains (has_mx_record env d st).2 = checked_domains st)
    as Hc1 by (by rewrite has_mx_record_eq).
  set (st1 := (has_mx_record env d st).2) in *.
  destruct (checked_domains st !! d) as [c|] eqn:Hd.
  - assert (checked_domains st1 !! d = Some c) as Hd1 by (by rewrite Hc1).
    rewrite (is_catch_all_cached _ _ _ _ Hd1). cbn [fst snd].
    exists a, [], c. by rewrite Ht1.
  - assert (checked_domains st1 !! d = None) as Hd1 by (by rewrite Hc1).
    destruct (is_catch_all_probe env d st1 Hd1)
      as (evs & Ht & Hval & Hc & _).
    exists a, evs, (probe_value evs). split_and!.
    + by rewrite Ht, Ht1, <- app_assoc.
    + by rewrite Hval.
    + rewrite Hc. apply lookup_insert_eq.
    + done.
Qed.

(** C1, as the program has it.  On the probe path, when a recipient
    command was answered by a code other than 250, or some call raised,
    [is_catch_all] stores [False] for the domain and the verdict is
    Okay to Send / Accepted. *)
Theorem C1_other_code_or_exception_accepted (g : Globals)
    (raw d0 : string) (st : State W) (evs : list Event) :
  validate_email env (cleaned raw) = Some d0 ->
  (has_mx_record env (PyStr.lower d0) st).1 = true ->
  PyStr.lower d0 ∉ DISPOSABLE_DOMAINS g ->
  trace (check_email env g raw st).2 = trace st ++ evs ->
  (exists c : Z, c ∈ rcpt_codes evs /\ c ≠ 250) \/ raised evs = true ->
  (check_email env g raw st).1
  = verdict (cleaned raw) "Okay to Send" "Accepted"
  /\ checked_domains (check_email env g raw st).2 !! PyStr.lower d0
     = Some (PyBool false).
Proof.
  intros Hv Hmx Hnd Ht Hprem.
  destruct (check_email_probe_path g raw d0 st Hv Hmx Hnd)
    as (a & evs' & v & Ht' & Hres & Hc & Hcase).
  rewrite Ht' in Ht. apply app_inv_head in Ht. subst evs.
  assert (v = PyBool false) as ->; [|by rewrite Hres, Hc].
  destruct (checked_domains st !! PyStr.lower d0) as [c|].
  { destruct Hcase as [_ ->].
    destruct Hprem as [(c' & Hin & _)|Hr]; [|discriminate].
    simpl in Hin. by apply elem_of_nil in Hin. }
  subst v. unfold probe_value.
  change (raised (EvResolve (PyStr.lower d0) (Some a) :: evs'))
    with (raised evs') in Hprem.
  change (rcpt_codes (EvResolve (PyStr.lower d0) (Some a) :: evs'))
    with (rcpt_codes evs') in Hprem.
  destruct (raised evs'); [done|].
  destruct Hprem as [(c' & Hin & Hne)|Hr]; [|discriminate].
  destruct (rcpt_codes evs') as [|c1 [|c2 cs]]; try done.
  apply list_elem_of_singleton in Hin as <-.
  by rewrite (proj2 (Z.eqb_neq c' 250) Hne).
Qed.

(** C2, as the program has it.  On the probe path: if the recipient
    command was answered 250 and no call of the probe raised, QUIT included,
    [is_catch_all] stores ['maybe'] for the domain and the verdict is
    Do Not Send / Catch-All; if it was answered 550, [is_catch_all] stores
    [False] and the verdict is Okay to Send / Accepted, whether QUIT raised
    or not. *)
Theorem C2_codes_250_and_550 (g : Globals) (raw d0 : string)
    (st : State W) (evs : list Event) :
  validate_email env (cleaned raw) = Some d0 ->
  (has_mx_record env (PyStr.lower d0) st).1 = true ->
  PyStr.lower d0 ∉ DISPOSABLE_DOMAINS g ->
  trace (check_email env g raw st).2 = trace st ++ evs ->
  (rcpt_codes evs = [250] ->
   raised evs = false ->
     (check_email env g raw st).1
     = verdict (cleaned raw) "Do Not Send" "Catch-All"
     /\ checked_domains (check_email env g raw st).2 !! PyStr.lower d0
        = Some (PyStr "maybe"))
  /\ (rcpt_codes evs = [550] ->
        (check_email env g raw st).1
        = verdict (cleaned raw) "Okay to Send" "Accepted"
        /\ checked_domains (check_email env g raw st).2 !! PyStr.lower d0
           = Some (PyBool false)).
Proof.
  intros Hv Hmx Hnd Ht.
  destruct (check_email_probe_path g raw d0 st Hv Hmx Hnd)
    as (a & evs' & v & Ht' & Hres & Hc & Hcase).
  rewrite Ht' in Ht. apply app_inv_head in Ht. subst evs.
  change (raised (EvResolve (PyStr.lower d0) (Some a) :: evs'))
    with (raised evs').
  change (rcpt_codes (EvResolve (PyStr.lower d0) (Some a) :: evs'))
    with (rcpt_codes evs').
  rewrite Hres, Hc.
  destruct (checked_domains st !! PyStr.lower d0) as [c|].
  { destruct Hcase as [_ ->]. split; discriminate. }
  subst v. unfold probe_value. split.
  - intros -> ->. done.
  - intros ->. by destruct (raised evs').
Qed.

(** C3, as the program has it.  A probe of a domain that is not in the
    cache, whose MX query is answered with at least one record, opens its
    one connection to the first record of the answer, in the order the
    resolver returned, with the dots at both ends of the name removed. *)
Theorem C3_first_record_contacted (d : string) (st : State W)
    (mx : MxRecord) (rest : list MxRecord) :
  checked_domains st !! d = None ->
  (dns_resolve env (world st) d).1 = Some (mx :: rest) ->
  exists evs : list Event,
    trace (is_catch_all env d st).2 = trace st ++ evs
    /\ connects evs = [PyStr.strip_chars "." (exchange mx)].
Proof.
  intros Hd Hans.
  destruct (is_catch_all_probe env d st Hd) as (evs & Ht & _ & _ & _ & Hc & _).
  exists evs. split; [exact Ht|]. by rewrite Hc, Hans.
Qed.

(** C10.  From a state whose cache holds only what [is_catch_all] has
    stored, [is_catch_all] returns ['maybe'] or [False] and leaves such a
    state; when its value is not ['maybe'], the value of the next call is
    not true, so the second Catch-All branch of [check_email] is never
    taken; and an address is called Catch-All only when the trace holds a
    recipient command for its domain that was answered 250. *)
Theorem C10_maybe_or_false (g : Globals) (d raw : string) (st : State W) :
  cache_justified st ->
  let p := is_catch_all env d st in
  let r := check_email env g raw st in
  (p.1 = PyStr "maybe" \/ p.1 = PyBool false)
  /\ (py_eq p.1 (PyStr "maybe") = false ->
      truthy (is_catch_all env d p.2).1 = false)
  /\ cache_justified p.2
  /\ cache_justified r.2
  /\ (validation_analysis r.1 = "Catch-All" ->
      exists d0 fake : string,
        validate_email env (cleaned raw) = Some d0
        /\ EvRcpt (fake +:+ "@" +:+ PyStr.lower d0) (Some 250) ∈ trace r.2).
Proof.
  intros Hj p r.
  assert (forall (s : State W) (k : string),
            cache_justified s ->
            (is_catch_all env k s).1 = PyStr "maybe"
            \/ (is_catch_all env k s).1 = PyBool false) as Hval.
  { intros s k Hs.
    destruct (is_catch_all_justified env k s Hs k _
                (is_catch_all_stored env k s)) as [->|[-> _]]; auto. }
  split_and!.
  - by apply Hval.
  - unfold p. rewrite is_catch_all_twice.
    destruct (Hval st d Hj) as [->| ->]; [discriminate|done].
  - by apply is_catch_all_justified.
  - by apply check_email_justified.
  - pose proof (check_email_justified env g raw st Hj) as Hj'.
    fold r in Hj'. unfold r in *. revert Hj'. rewrite check_email_eq.
    destruct (validate_email env (cleaned raw)) as [vd|]; [|discriminate].
    cbv zeta. destruct (negb _); [discriminate|].
    destruct (bool_decide _); [discriminate|]. cbn [fst snd].
    set (st1 := (has_mx_record env (PyStr.lower vd) st).2).
    assert (cache_justified st1) as Hj1
      by (by apply has_mx_record_justified).
    intros Hj' Hca.
    pose proof (is_catch_all_stored env (PyStr.lower vd) st1) as Hst.
    destruct (Hval st1 (PyStr.lower vd) Hj1) as [Hm|Hf];
      rewrite ?Hm, ?Hf in *; [|discriminate].
    destruct (Hj' _ _ Hst) as [?|[_ [fake Hin]]]; [discriminate|].
    by exists vd, fake.
Qed.

(** C8.  For the input ["a@b.com ;"] the white space is stripped first and
    the semicolon removed afterwards, so the string that is validated and
    recorded is ["a@b.com "], white space at its end; checking that
    cleaned string again records ["a@b.com"]. *)
Theorem C8_strip_then_replace (g : Globals) (st : State W) :
  cleaned "a@b.com ;" = "a@b.com "
  /\ email (check_email env g "a@b.com ;" st).1 = "a@b.com "
  /\ email (check_email env g (cleaned "a@b.com ;") st).1 = "a@b.com".
Proof. rewrite !check_email_email. by vm_compute. Qed.

End Claims.

(** ** The claims in the scripted world *)

Module Runs.

Import Sample.

(** C1, as the specification words it, fails: a server that answers the
    recipient command 451, and a server that drops the connection at that
    command, both lead to Okay to Send / Accepted. *)
Lemma C1_counterexample :
  (let r := check_email (server 451) module_globals
              "user@greylist.example" start in
   rcpt_codes (trace r.2) = [451]
   /\ r.1 = verdict "user@greylist.example" "Okay to Send" "Accepted")
  /\ (let r := check_email (scripted (answering None true)) module_globals
                 "user@dropped.example" start in
      raised (trace r.2) = true
      /\ r.1 = verdict "user@dropped.example" "Okay to Send" "Accepted").
Proof. by vm_compute. Qed.

Lemma C1_other_code_or_exception_accepted_witness :
  (check_email (server 451) module_globals "user@greylist.example" start).1
  = verdict "user@greylist.example" "Okay to Send" "Accepted".
Proof.
  eapply proj1.
  apply (C1_other_code_or_exception_accepted (server 451) module_globals
           "user@greylist.example" "greylist.example" start
           (trace (check_email (server 451) module_globals
                     "user@greylist.example" start).2)).
  - reflexivity.
  - reflexivity.
  - by vm_compute.
  - reflexivity.
  - left. exists 451. split; [vm_compute; constructor | lia].
Defined.

(** C2, as the specification words it, fails: the server answers the
    recipient command 250 and then drops the connection, so that QUIT
    raises; [False] is stored and the verdict is Okay to Send / Accepted. *)
Lemma C2_counterexample :
  let env := scripted (answering (Some 250) false) in
  let r := check_email env module_globals "user@catchall.example" start in
  validate_email env (cleaned "user@catchall.example")
  = Some "catchall.example"
  /\ (has_mx_record env "catchall.example" start).1 = true
  /\ ("catchall.example" ∉ DISPOSABLE_DOMAINS module_globals)
  /\ rcpt_codes (trace r.2) = [250]
  /\ r.1 = verdict "user@catchall.example" "Okay to Send" "Accepted"
  /\ checked_domains r.2 !! "catchall.example" = Some (PyBool false).
Proof. by vm_compute. Qed.

Lemma C2_codes_250_and_550_witness :
  (check_email (server 250) module_globals "user@catchall.example" start).1
  = verdict "user@catchall.example" "Do Not Send" "Catch-All"
  /\ (check_email (server 550) module_globals "user@strict.example" start).1
     = verdict "user@strict.example" "Okay to Send" "Accepted".
Proof.
  split.
  - eapply proj1.
    apply (proj1 (C2_codes_250_and_550 (server 250) module_globals
             "user@catchall.example" "catchall.example" start
             (trace (check_email (server 250) module_globals
                       "user@catchall.example" start).2)
             eq_refl eq_refl ltac:(by vm_compute) eq_refl)).
    + reflexivity.
    + reflexivity.
  - eapply proj1.
    apply (proj2 (C2_codes_250_and_550 (server 550) module_globals
             "user@strict.example" "strict.example" start
             (trace (check_email (server 550) module_globals
                       "user@strict.example" start).2)
             eq_refl eq_refl ltac:(by vm_compute) eq_refl)).
    reflexivity.
Defined.

(** C3, as the specification words it, fails: the answer lists the record
    of preference 20 before the record of preference 10, and the probe
    connects to the former. *)
Lemma C3_counterexample :
  connects (trace (is_catch_all (server 550) "strict.example" start).2)
  = ["mx2.example"]
  /\ (dns_resolve (server 550) (world start) "strict.example").1
     = Some two_records
  /\ spec_lowest_preference two_records
     = Some {| preference := 10; exchange := "mx1.example." |}.
Proof. by vm_compute. Qed.

Lemma C3_first_record_contacted_witness :
  exists evs : list Event,
    trace (is_catch_all (server 550) "strict.example" start).2
    = trace start ++ evs
    /\ connects evs = ["mx2.example"].
Proof.
  apply (C3_first_record_contacted (server 550) "strict.example" start
           {| preference := 20; exchange := "mx2.example." |}
           [ {| preference := 10; exchange := "mx1.example." |} ]).
  - reflexivity.
  - reflexivity.
Defined.

Lemma C5_disposable_witness :
  (check_email (server 550) module_globals "user@MAILINATOR.com" start).1
  = verdict "user@MAILINATOR.com" "Do Not Send" "Disposable"
  /\ smtp_events
       (trace (check_email (server 550) module_globals
                 "user@MAILINATOR.com" start).2) = [].
Proof.
  destruct (C5_disposable (server 550) "user@MAILINATOR.com"
              "MAILINATOR.com" start eq_refl eq_refl) as (Heq & Hs & _).
  - exists "mailinator.com". split; [by vm_compute | reflexivity].
  - split; [by rewrite Heq | exact Hs].
Defined.

Lemma C6_no_mail_exchange_witness :
  (check_email (scripted no_dns) module_globals
     "user@example-with-no-mx.test" start).1
  = verdict "user@example-with-no-mx.test" "Do Not Send" "No MX"
  /\ smtp_events
       (trace (check_email (scripted no_dns) module_globals
                 "user@example-with-no-mx.test" start).2) = [].
Proof.
  destruct (C6_no_mail_exchange (scripted no_dns) module_globals
              "user@example-with-no-mx.test" "example-with-no-mx.test"
              start eq_refl eq_refl) as (Heq & Hs).
  split; [by rewrite Heq | exact Hs].
Defined.

Lemma C7_invalid_syntax_witness :
  check_email (scripted no_dns) module_globals "not-an-email" start
  = (verdict "not-an-email" "Do Not Send" "Invalid Syntax", start).
Proof.
  apply (C7_invalid_syntax (scripted no_dns) module_globals
           "not-an-email" start).
  reflexivity.
Defined.

(** C8 in the scripted world: the raw string is refused by the validator,
    its cleaned form is accepted, and the two verdicts differ. *)
Lemma C8_sample_verdicts_differ :
  (check_email (server 550) module_globals "a@b.com ;" start).1
  = verdict "a@b.com " "Do Not Send" "Invalid Syntax"
  /\ (check_email (server 550) module_globals (cleaned "a@b.com ;") start).1
     = verdict "a@b.com" "Okay to Send" "Accepted".
Proof. by vm_compute. Qed.

Lemma C10_maybe_or_false_witness :
  (is_catch_all (server 250) "catchall.example" start).1 = PyStr "maybe"
  \/ (is_catch_all (server 250) "catchall.example" start).1 = PyBool false.
Proof.
  eapply proj1.
  apply (C10_maybe_or_false (server 250) module_globals "catchall.example"
           "user@catchall.example" start).
  apply initial_justified.
Defined.

End Runs.


(** ** Facts on the string methods *)

Section StringFacts.

Variable p : ascii -> bool.

Lemma rstrip_with_idem (s : string) :
  PyStr.rstrip_with p (PyStr.rstrip_with p s) = PyStr.rstrip_with p s.
Proof.
  induction s as [|c s IH]; [done|]. cbn [PyStr.rstrip_with].
  destruct (PyStr.rstrip_with p s) as [|c' r] eqn:Hr.
  - destruct (p c) eqn:Hc; [done|]. cbn [PyStr.rstrip_with]. by rewrite Hc.
  - cbn [PyStr.rstrip_with]. cbn [PyStr.rstrip_with] in IH.
    destruct (PyStr.rstrip_with p r) as [|c'' r'] eqn:Hr'.
    + destruct (p c'); [discriminate|]. by injection IH as ->.
    + by rewrite IH.
Qed.

Lemma lstrip_with_head (s : string) :
  PyStr.lstrip_with p s = EmptyString
  \/ exists (c : ascii) (t : string),
       PyStr.lstrip_with p s = String c t /\ p c = false.
Proof.
  induction s as [|c s IH]; [by left|]. cbn [PyStr.lstrip_with].
  destruct (p c) eqn:Hc; [exact IH|]. right. by exists c, s.
Qed.

Lemma rstrip_with_head (c : ascii) (t : string) :
  p c = false ->
  exists r : string, PyStr.rstrip_with p (String c t) = String c r.
Proof.
  intros Hc. cbn [PyStr.rstrip_with].
  destruct (PyStr.rstrip_with p t) as [|c' r]; [|by eexists].
  rewrite Hc. by eexists.
Qed.

(** Stripping a stripped string changes nothing. *)
Lemma strip_with_idem (s : string) :
  PyStr.strip_with p (PyStr.strip_with p s) = PyStr.strip_with p s.
Proof.
  unfold PyStr.strip_with.
  destruct (lstrip_with_head s) as [->|(c & t & -> & Hc)]; [done|].
  destruct (rstrip_with_head c t Hc) as [r Hr].
  rewrite Hr. cbn [PyStr.lstrip_with]. rewrite Hc, <- Hr.
  apply rstrip_with_idem.
Qed.

Lemma mem_lstrip_with (c : ascii) (s : string) :
  PyStr.mem c s = false -> PyStr.mem c (PyStr.lstrip_with p s) = false.
Proof.
  induction s as [|d s IH]; [done|]. cbn [PyStr.lstrip_with PyStr.mem].
  intros H. destruct (p d); [|exact H].
  apply IH. by apply orb_false_iff in H as [_ H].
Qed.

Lemma mem_rstrip_with (c : ascii) (s : string) :
  PyStr.mem c s = false -> PyStr.mem c (PyStr.rstrip_with p s) = false.
Proof.
  induction s as [|d s IH]; [done|]. cbn [PyStr.rstrip_with PyStr.mem].
  intros H. apply orb_false_iff in H as [Hd Hs]. specialize (IH Hs).
  destruct (PyStr.rstrip_with p s) as [|c' r].
  - destruct (p d); [done|]. cbn [PyStr.mem]. by rewrite Hd.
  - cbn [PyStr.mem] in *. by rewrite Hd, IH.
Qed.

(** Stripping brings in no character. *)
Lemma mem_strip_with (c : ascii) (s : string) :
  PyStr.mem c s = false -> PyStr.mem c (PyStr.strip_with p s) = false.
Proof.
  intros H. unfold PyStr.strip_with.
  by apply mem_rstrip_with, mem_lstrip_with.
Qed.

End StringFacts.

Lemma replace_empty_absent (c : ascii) (s : string) :
  PyStr.mem c (PyStr.replace_empty c s) = false.
Proof.
  induction s as [|d s IH]; [done|]. cbn [PyStr.replace_empty].
  destruct (Ascii.eqb d c) eqn:Hd; [exact IH|].
  cbn [PyStr.mem]. by rewrite Ascii.eqb_sym, Hd, IH.
Qed.

Lemma replace_empty_id (c : ascii) (s : string) :
  PyStr.mem c s = false -> PyStr.replace_empty c s = s.
Proof.
  induction s as [|d s IH]; [done|]. cbn [PyStr.replace_empty PyStr.mem].
  intros H. apply orb_false_iff in H as [Hd Hs].
  rewrite Ascii.eqb_sym, Hd. by rewrite IH.
Qed.

(** No piece of a split holds the separator. *)
Lemma py_split_pieces (sep : ascii) (s : string) :
  Forall (fun piece => PyStr.mem sep piece = false) (py_split sep s).
Proof.
  induction s as [|c s IH]; [by repeat constructor|]. cbn [py_split].
  destruct (Ascii.eqb c sep) eqn:Hc; [by constructor|].
  destruct (py_split sep s) as [|piece pieces].
  - repeat constructor. cbn [PyStr.mem]. by rewrite Ascii.eqb_sym, Hc.
  - inversion IH as [|? ? Hp Hps]; subst. constructor; [|done].
    cbn [PyStr.mem]. by rewrite Ascii.eqb_sym, Hc, Hp.
Qed.

Lemma lower_char_idem (c : ascii) :
  PyStr.lower_char (PyStr.lower_char c) = PyStr.lower_char c.
Proof. destruct c as [[] [] [] [] [] [] [] []]; reflexivity. Qed.

Lemma lower_idem (s : string) : PyStr.lower (PyStr.lower s) = PyStr.lower s.
Proof.
  induction s as [|c s IH]; [done|]. cbn [PyStr.lower].
  by rewrite lower_char_idem, IH.
Qed.

(** ** More on the script: inputs, table and batch *)

Section Inputs.

Context {W : Type}.
Variable env : Env W.
Variable g : Globals.

(** X1.  Every address taken from the pasted text is non-empty, has no white
    space at either end and holds no line break. *)
Theorem pasted_emails_clean (pasted : string) :
  Forall (fun e => e ≠ EmptyString
                   /\ PyStr.strip e = e
                   /\ PyStr.mem "010" e = false)
    (pasted_emails pasted).
Proof.
  unfold pasted_emails. destruct (nonempty (PyStr.strip pasted)); [|constructor].
  apply List.Forall_forall. intros e Hin.
  apply in_map_iff in Hin as (line & <- & Hin).
  apply filter_In in Hin as [Hin Hne].
  split_and!.
  - intros Heq. unfold nonempty in Hne. by rewrite Heq in Hne.
  - apply strip_with_idem.
  - apply mem_strip_with.
    pose proof (py_split_pieces "010" (PyStr.strip pasted)) as Hall.
    by apply (proj1 (List.Forall_forall _ _) Hall).
Qed.

(** X2.  Every address taken from the uploaded column holds no semicolon and
    has no white space at either end, so [check_email] records it as it is;
    there is one address for each cell that is not missing. *)
Theorem uploaded_emails_clean (column : list (option string)) :
  Forall (fun e => PyStr.mem ";" e = false
                   /\ PyStr.strip e = e
                   /\ forall st : State W,
                        email (check_email env g e st).1 = e)
    (uploaded_emails column)
  /\ length (uploaded_emails column) = length (omap id column).
Proof.
  unfold uploaded_emails. split; [|apply length_map].
  apply List.Forall_forall. intros e Hin.
  apply in_map_iff in Hin as (cell & <- & _).
  assert (PyStr.mem ";" (PyStr.strip (PyStr.replace_empty ";" cell)) = false)
    as Hsemi by apply mem_strip_with, replace_empty_absent.
  assert (PyStr.strip (PyStr.strip (PyStr.replace_empty ";" cell))
          = PyStr.strip (PyStr.replace_empty ";" cell))
    as Hstrip by apply strip_with_idem.
  split_and!; [done..|].
  intros st. rewrite check_email_email. unfold cleaned.
  rewrite Hstrip. by apply replace_empty_id.
Qed.

(** X3.  Applying [status_icon] to its own result changes nothing. *)
Theorem status_icon_idempotent (status : string) :
  status_icon (status_icon status) = status_icon status.
Proof.
  unfold status_icon at 2 3.
  destruct (String.eqb status "Okay to Send") eqn:H1;
    [apply String.eqb_eq in H1 as ->; reflexivity|].
  destruct (String.eqb status "Do Not Send") eqn:H2;
    [apply String.eqb_eq in H2 as ->; reflexivity|].
  destruct (String.eqb status "Maybe Send") eqn:H3;
    [apply String.eqb_eq in H3 as ->; reflexivity|].
  destruct (String.eqb status "Checking...") eqn:H4;
    [apply String.eqb_eq in H4 as ->; reflexivity|].
  unfold status_icon. by rewrite H1, H2, H3, H4.
Qed.

(** The status and the analysis [check_email] can return. *)
Lemma check_email_status_cases (raw : string) (st : State W) :
  let v := (check_email env g raw st).1 in
  (validation_status v, validation_analysis v)
  ∈ [ ("Do Not Send", "Invalid Syntax"); ("Do Not Send", "No MX");
      ("Do Not Send", "Disposable"); ("Do Not Send", "Catch-All");
      ("Okay to Send", "Accepted") ]
  /\ (validation_status v = "Okay to Send"
      <-> validation_analysis v = "Accepted").
Proof.
  intros v. unfold v. rewrite check_email_eq.
  destruct (validate_email env (cleaned raw)) as [vd|];
    [|cbn; split; [set_solver | split; discriminate]].
  cbv zeta.
  destruct (negb _); [cbn; split; [set_solver | split; discriminate]|].
  destruct (bool_decide _);
    [cbn; split; [set_solver | split; discriminate]|].
  cbn [fst].
  destruct (_ || _); cbn; (split; [set_solver | split; (discriminate || done)]).
Qed.

(** X4.  The verdict of [check_email] carries one of five pairs of status
    and analysis; the status is Okay to Send exactly when the analysis is
    Accepted. *)
Theorem check_email_pairs (raw : string) (st : State W) :
  let v := (check_email env g raw st).1 in
  (validation_status v, validation_analysis v)
  ∈ [ ("Do Not Send", "Invalid Syntax"); ("Do Not Send", "No MX");
      ("Do Not Send", "Disposable"); ("Do Not Send", "Catch-All");
      ("Okay to Send", "Accepted") ]
  /\ (validation_status v = "Okay to Send"
      <-> validation_analysis v = "Accepted").
Proof. apply check_email_status_cases. Qed.

Lemma run_batch_results (emails : list string) (acc : list Verdict)
    (st : State W) :
  (run_batch env g emails acc st).1
  = acc ++ (run_batch env g emails [] st).1.
Proof.
  revert acc st. induction emails as [|e emails IH]; intros acc st.
  - cbn. by rewrite app_nil_r.
  - cbn [run_batch]. destruct (check_email env g e st) as [r st'].
    rewrite (IH (acc ++ [r])), (IH ([] ++ [r])). by rewrite <- app_assoc.
Qed.

Lemma run_batch_cons (e : string) (emails : list string) (st : State W) :
  (run_batch env g (e :: emails) [] st).1
  = (check_email env g e st).1
    :: (run_batch env g emails [] (check_email env g e st).2).1.
Proof.
  cbn [run_batch]. destruct (check_email env g e st) as [r st'].
  by rewrite run_batch_results.
Qed.

(** X5.  A batch gives one verdict for each address, in the order of the
    addresses, and each verdict records the cleaned address; the verdicts the
    list already held stay in front. *)
Theorem run_batch_emails (emails : list string) (acc : list Verdict)
    (st : State W) :
  List.map email (run_batch env g emails acc st).1
  = List.map email acc ++ List.map cleaned emails.
Proof.
  rewrite run_batch_results, List.map_app. f_equal.
  revert st. induction emails as [|e emails IH]; intros st; [done|].
  rewrite run_batch_cons. cbn [List.map].
  by rewrite check_email_email, IH.
Qed.

(** X7.  In the final table of a batch every status is shown with the green
    or the red icon; the orange icon and the clock never appear there. *)
Theorem final_statuses_icons (emails : list string) (st : State W) :
  Forall (fun row => row = "🟢 Okay to Send" \/ row = "🔴 Do Not Send")
    (final_statuses (run_batch env g emails [] st).1).
Proof.
  unfold final_statuses. revert st.
  induction emails as [|e emails IH]; intros st; [constructor|].
  rewrite run_batch_cons. cbn [List.map]. constructor; [|apply IH].
  destruct (check_email_status_cases e st) as [Hin _].
  repeat (apply elem_of_cons in Hin as [Hin|Hin];
          [injection Hin as -> _; by (left + right)|]).
  by apply elem_of_nil in Hin.
Qed.

End Inputs.

(** ** More on the network calls *)

(** Closes the facts about the commands of one path through a probe. *)
Ltac session_facts Hlen Hmem :=
  split; [rewrite <- ?app_assoc; reflexivity|];
  split; [exact Hlen|]; split; [exact Hmem|];
  split; [by eexists|];
  split_and!; try done; simpl; lia.

(** Closes the facts about the script of one path through a probe. *)
Ltac script_facts Hlen Hmem :=
  split; [rewrite <- ?app_assoc; reflexivity|];
  split; [exact Hlen|]; split; [exact Hmem|];
  split; [by eexists|];
  split; [reflexivity|];
  simpl; first [discriminate | intros _; try split; reflexivity].

Section Network.

Context {W : Type}.
Variable env : Env W.

Lemma get_mem (s : string) (i : nat) (c : ascii) :
  PyStr.get i s = Some c -> PyStr.mem c s = true.
Proof.
  unfold PyStr.get. revert i. induction s as [|d s IH]; intros i; [done|].
  destruct i as [|i]; cbn [String.get PyStr.mem].
  - intros [= ->]. by rewrite Ascii.eqb_refl.
  - intros H. rewrite (IH _ H). apply orb_true_r.
Qed.

Lemma get_lt (s : string) (i : nat) :
  (i < String.length s)%nat -> is_Some (PyStr.get i s).
Proof.
  unfold PyStr.get. revert i. induction s as [|d s IH]; intros i; cbn; [lia|].
  destruct i as [|i]; [by eexists|]. intros H. apply IH. lia.
Qed.

Lemma choices_S (population : string) (k : nat) (w : W) :
  choices env population (S k) w
  = (String
       (default "a"%char
          (PyStr.get ((random_draw env w).1 mod String.length population)
             population))
       (choices env population k (random_draw env w).2).1,
     (choices env population k (random_draw env w).2).2).
Proof.
  unfold choices at 1. fold (choices env).
  destruct (random_draw env w) as [n w1]. cbn [fst snd].
  by destruct (choices env population k w1).
Qed.

(** [k] draws from a non-empty population give [k] characters of the
    population. *)
Lemma choices_spec (population : string) (k : nat) (w : W) :
  (0 < String.length population)%nat ->
  String.length (choices env population k w).1 = k
  /\ forall c : ascii,
       PyStr.mem c (choices env population k w).1 = true ->
       PyStr.mem c population = true.
Proof.
  intros Hpop. revert w. induction k as [|k IH]; intros w.
  - split; [done|]. intros c. unfold choices. cbn. discriminate.
  - rewrite choices_S. cbn [fst String.length PyStr.mem].
    destruct (IH (random_draw env w).2) as [Hlen Hmem].
    split; [by rewrite Hlen|]. intros c Hc.
    apply orb_true_iff in Hc as [Hc|Hc]; [|by apply Hmem].
    apply Ascii.eqb_eq in Hc as ->.
    destruct (get_lt population
                ((random_draw env w).1 mod String.length population)) as [c Hg].
    { apply Nat.mod_upper_bound. lia. }
    rewrite Hg. cbn. by apply get_mem in Hg.
Qed.

(** The calls of one probe of a domain that is not in the cache. *)
Lemma is_catch_all_session (d : string) (st : State W) :
  checked_domains st !! d = None ->
  exists (evs : list Event) (host fake : string),
    trace (is_catch_all env d st).2 = trace st ++ evs
    /\ String.length fake = 24%nat
    /\ (forall c : ascii,
          PyStr.mem c fake = true -> PyStr.mem c (alphabet) = true)
    /\ List.map command_of evs
       `prefix_of` [ CmdResolve d; CmdConnect host; CmdHelo "test.local";
                     CmdMail ("test@" +:+ d);
                     CmdRcpt (fake +:+ "@" +:+ d); CmdQuit ]
    /\ evs ≠ []
    /\ raised (removelast evs) = false
    /\ quit_sent evs
       = match rcpt_codes evs with [] => false | _ => true end
    /\ (length (rcpt_recipients evs) <= 1)%nat.
Proof.
  intros Hnone. unfold is_catch_all. rewrite Hnone.
  unfold is_catch_all_try, bind, resolve, connect, helo, mail, rcpt, quit,
    random_choices, ret, call.
  assert (0 < String.length alphabet)%nat as Hpop by (cbn; lia).
  destruct (choices_spec alphabet 24 (world st) Hpop) as [Hlen0 Hmem0].
  destruct (dns_resolve env (world st) d) as [[[|mx0 rest]|] w1]; simpl.
  - exists [EvResolve d (Some [])], "", (choices env alphabet 24 (world st)).1.
    session_facts Hlen0 Hmem0.
  - destruct (smtp_connect env w1 _) as [[|] w2]; simpl;
      [|eexists [_; _], _, _; session_facts Hlen0 Hmem0].
    destruct (smtp_helo env w2 _) as [[|] w3]; simpl;
      [|eexists [_; _; _], _, _; session_facts Hlen0 Hmem0].
    destruct (smtp_mail env w3 _) as [[|] w4]; simpl;
      [|eexists [_; _; _; _], _, _; session_facts Hlen0 Hmem0].
    destruct (choices_spec alphabet 24 w4 Hpop) as [Hlen Hmem].
    destruct (choices env alphabet 24 w4) as [fake w5]; simpl in *.
    destruct (smtp_rcpt env w5 _) as [[c|] w6]; simpl;
      [|eexists [_; _; _; _; _], _, fake; session_facts Hlen Hmem].
    destruct (smtp_quit env w6) as [[|] w7]; simpl;
      eexists [_; _; _; _; _; _], _, fake;
      repeat match goal with
             | |- context [Z.eqb ?c ?k] => destruct (Z.eqb c k)
             end;
      session_facts Hlen Hmem.
  - exists [EvResolve d None], "", (choices env alphabet 24 (world st)).1.
    session_facts Hlen0 Hmem0.
Qed.

End Network.

Section NetworkFacts.

Context {W : Type}.
Variable env : Env W.
Variable g : Globals.

(** The commands of one probe of a domain that is not in the cache, with
    the host taken from the answer to the MX query. *)
Lemma is_catch_all_script (d : string) (st : State W) :
  checked_domains st !! d = None ->
  exists (evs : list Event) (host fake : string),
    trace (is_catch_all env d st).2 = trace st ++ evs
    /\ String.length fake = 24%nat
    /\ (forall c : ascii,
          PyStr.mem c fake = true -> PyStr.mem c (alphabet) = true)
    /\ List.map command_of evs
       `prefix_of` [ CmdResolve d; CmdConnect host; CmdHelo "test.local";
                     CmdMail ("test@" +:+ d);
                     CmdRcpt (fake +:+ "@" +:+ d); CmdQuit ]
    /\ raised (removelast evs) = false
    /\ (raised evs = false ->
        match (dns_resolve env (world st) d).1 with
        | Some (mx0 :: _) =>
            host = PyStr.strip_chars "." (exchange mx0)
            /\ List.map command_of evs
               = [ CmdResolve d; CmdConnect host; CmdHelo "test.local";
                   CmdMail ("test@" +:+ d);
                   CmdRcpt (fake +:+ "@" +:+ d); CmdQuit ]
        | _ => List.map command_of evs = [CmdResolve d]
        end).
Proof.
  intros Hnone. unfold is_catch_all. rewrite Hnone.
  unfold is_catch_all_try, bind, resolve, connect, helo, mail, rcpt, quit,
    random_choices, ret, call.
  assert (0 < String.length alphabet)%nat as Hpop by (cbn; lia).
  destruct (choices_spec env alphabet 24 (world st) Hpop) as [Hlen0 Hmem0].
  destruct (dns_resolve env (world st) d) as [[[|mx0 rest]|] w1]; simpl.
  - exists [EvResolve d (Some [])], "", (choices env alphabet 24 (world st)).1.
    script_facts Hlen0 Hmem0.
  - destruct (smtp_connect env w1 _) as [[|] w2]; simpl;
      [|eexists [_; _], _, _; script_facts Hlen0 Hmem0].
    destruct (smtp_helo env w2 _) as [[|] w3]; simpl;
      [|eexists [_; _; _], _, _; script_facts Hlen0 Hmem0].
    destruct (smtp_mail env w3 _) as [[|] w4]; simpl;
      [|eexists [_; _; _; _], _, _; script_facts Hlen0 Hmem0].
    destruct (choices_spec env alphabet 24 w4 Hpop) as [Hlen Hmem].
    destruct (choices env alphabet 24 w4) as [fake w5]; simpl in *.
    destruct (smtp_rcpt env w5 _) as [[c|] w6]; simpl;
      [|eexists [_; _; _; _; _], _, fake; script_facts Hlen Hmem].
    destruct (smtp_quit env w6) as [[|] w7]; simpl;
      eexists [_; _; _; _; _; _], _, fake;
      repeat match goal with
             | |- context [Z.eqb ?c ?k] => destruct (Z.eqb c k)
             end;
      script_facts Hlen Hmem.
  - exists [EvResolve d None], "", (choices env alphabet 24 (world st)).1.
    script_facts Hlen0 Hmem0.
Qed.

(** X8.  A probe of a domain that is not in the cache sends its commands in
    one order and goes on until a call raises: when no call raises and the
    MX query is answered with a record, it sends all of the MX query, a
    connection to the first record of the answer, HELO test.local, MAIL from
    test@ the domain, RCPT for a local part of 24 characters, each a
    lower-case letter or a digit, at the domain, and QUIT.  When a call
    raises, that call is the last one and the calls before it are the
    beginning of that list.  When the answer holds no record the MX query is
    the only call. *)
Theorem probe_commands (d : string) (st : State W) :
  checked_domains st !! d = None ->
  exists (evs : list Event) (host fake : string),
    trace (is_catch_all env d st).2 = trace st ++ evs
    /\ String.length fake = 24%nat
    /\ (forall c : ascii,
          PyStr.mem c fake = true ->
          PyStr.mem c "abcdefghijklmnopqrstuvwxyz0123456789" = true)
    /\ List.map command_of evs
       `prefix_of` [ CmdResolve d; CmdConnect host; CmdHelo "test.local";
                     CmdMail ("test@" +:+ d);
                     CmdRcpt (fake +:+ "@" +:+ d); CmdQuit ]
    /\ raised (removelast evs) = false
    /\ (raised evs = false ->
        match (dns_resolve env (world st) d).1 with
        | Some (mx0 :: _) =>
            host = PyStr.strip_chars "." (exchange mx0)
            /\ List.map command_of evs
               = [ CmdResolve d; CmdConnect host; CmdHelo "test.local";
                   CmdMail ("test@" +:+ d);
                   CmdRcpt (fake +:+ "@" +:+ d); CmdQuit ]
        | _ => List.map command_of evs = [CmdResolve d]
        end).
Proof. intros Hd. exact (is_catch_all_script d st Hd). Qed.

(** X9.  In a probe of a domain that is not in the cache only the last call
    can have raised, and QUIT is sent exactly when the recipient command was
    answered: after a call that raises, the session is left without QUIT. *)
Theorem probe_quit (d : string) (st : State W) :
  checked_domains st !! d = None ->
  exists evs : list Event,
    trace (is_catch_all env d st).2 = trace st ++ evs
    /\ evs ≠ []
    /\ raised (removelast evs) = false
    /\ quit_sent evs = match rcpt_codes evs with [] => false | _ => true end.
Proof.
  intros Hd.
  destruct (is_catch_all_session env d st Hd)
    as (evs & host & fake & Ht & _ & _ & _ & Hne & Hr & Hq & _).
  by exists evs.
Qed.

Lemma is_catch_all_connections (d : string) (st : State W) :
  (length (connects (trace (is_catch_all env d st).2))
   + size (checked_domains st)
   <= length (connects (trace st))
      + size (checked_domains (is_catch_all env d st).2))%nat.
Proof.
  destruct (checked_domains st !! d) as [v|] eqn:Hd.
  - rewrite (is_catch_all_cached _ _ _ _ Hd). cbn [snd]. lia.
  - destruct (is_catch_all_probe env d st Hd)
      as (evs & -> & _ & -> & _ & Hc & _).
    unfold connects in *. rewrite omap_app, length_app, Hc.
    rewrite (map_size_insert_None _ _ _ Hd).
    destruct (dns_resolve env (world st) d).1 as [[|? ?]|]; simpl; lia.
Qed.

Lemma check_email_connections (raw : string) (st : State W) :
  (length (connects (trace (check_email env g raw st).2))
   + size (checked_domains st)
   <= length (connects (trace st))
      + size (checked_domains (check_email env g raw st).2))%nat.
Proof.
  rewrite check_email_eq.
  destruct (validate_email env _) as [vd|]; [|cbn [snd]; lia]. cbv zeta.
  set (st1 := (has_mx_record env (PyStr.lower vd) st).2).
  assert (connects (trace st1) = connects (trace st)
          /\ checked_domains st1 = checked_domains st) as [Hc Hm].
  { unfold st1. rewrite has_mx_record_eq. cbn [snd trace checked_domains].
    split; [|done]. unfold connects. rewrite omap_app. cbn. apply app_nil_r. }
  destruct (negb _); cbn [snd]; [rewrite Hc, Hm; lia|].
  destruct (bool_decide _); cbn [snd]; [rewrite Hc, Hm; lia|].
  pose proof (is_catch_all_connections (PyStr.lower vd) st1) as H.
  rewrite Hc, Hm in H. exact H.
Qed.

(** X10.  Over a batch the connections opened to SMTP servers number at most
    the domains the batch adds to the cache: one connection at most for each
    domain. *)
Theorem run_batch_connections (emails : list string) (acc : list Verdict)
    (st : State W) :
  (length (connects (trace (run_batch env g emails acc st).2))
   + size (checked_domains st)
   <= length (connects (trace st))
      + size (checked_domains (run_batch env g emails acc st).2))%nat.
Proof.
  revert acc st. induction emails as [|e emails IH]; intros acc st.
  - cbn. lia.
  - cbn [run_batch]. pose proof (check_email_connections e st) as H.
    destruct (check_email env g e st) as [r st']. cbn [snd] in H.
    specialize (IH (acc ++ [r]) st'). lia.
Qed.

Lemma check_email_keys (raw : string) (st : State W) (k : string) :
  is_Some (checked_domains (check_email env g raw st).2 !! k) ->
  is_Some (checked_domains st !! k)
  \/ exists d0 : string,
       validate_email env (cleaned raw) = Some d0
       /\ k = PyStr.lower d0
       /\ k ∉ DISPOSABLE_DOMAINS g.
Proof.
  rewrite check_email_eq.
  destruct (validate_email env _) as [vd|]; [|by left]. cbv zeta.
  set (st1 := (has_mx_record env (PyStr.lower vd) st).2).
  assert (checked_domains st1 = checked_domains st) as Hm
    by (unfold st1; by rewrite has_mx_record_eq).
  destruct (negb _); cbn [snd]; [rewrite Hm; by left|].
  case_bool_decide as Hdisp; cbn [snd]; [rewrite Hm; by left|].
  destruct (checked_domains st1 !! PyStr.lower vd) as [v|] eqn:Hd.
  - rewrite (is_catch_all_cached _ _ _ _ Hd). cbn [snd]. rewrite Hm. by left.
  - destruct (is_catch_all_probe env _ st1 Hd) as (evs & _ & _ & -> & _).
    rewrite Hm. intros Hk. apply lookup_insert_is_Some in Hk as [<-|[_ Hk]].
    + right. by exists vd.
    + by left.
Qed.

(** X11.  A domain that is in the cache after a batch was there before, or
    it is the lower-cased domain of an address of the batch that the
    validator accepted, it is in lower case and it is not a disposable
    domain. *)
Theorem run_batch_keys (emails : list string) (acc : list Verdict)
    (st : State W) (k : string) :
  is_Some (checked_domains (run_batch env g emails acc st).2 !! k) ->
  is_Some (checked_domains st !! k)
  \/ exists e d0 : string,
       e ∈ emails
       /\ validate_email env (cleaned e) = Some d0
       /\ k = PyStr.lower d0
       /\ PyStr.lower k = k
       /\ k ∉ DISPOSABLE_DOMAINS g.
Proof.
  revert acc st. induction emails as [|e emails IH]; intros acc st Hk.
  - by left.
  - cbn [run_batch] in Hk. pose proof (check_email_keys e st k) as He.
    destruct (check_email env g e st) as [r st']. cbn [snd] in He.
    destruct (IH _ _ Hk) as [Hk'|(e' & d0 & Hin & Hv & -> & Hl & Hd)].
    + destruct (He Hk') as [?|(d0 & Hv & -> & Hd)]; [by left|].
      right. exists e, d0. split_and!; try done; [left | apply lower_idem].
    + right. exists e', d0. split_and!; try done. by right.
Qed.

(** X12.  For an address whose domain is in the cache (validator accepts,
    MX query answered, not disposable) the verdict is read off the cached
    value and the MX query of [has_mx_record] is the only call: the domain is
    not probed again, whatever its server would answer now. *)
Theorem check_email_cached (raw d0 : string) (v : PyVal) (st : State W) :
  validate_email env (cleaned raw) = Some d0 ->
  (has_mx_record env (PyStr.lower d0) st).1 = true ->
  PyStr.lower d0 ∉ DISPOSABLE_DOMAINS g ->
  checked_domains st !! PyStr.lower d0 = Some v ->
  check_email env g raw st
  = (if py_eq v (PyStr "maybe") || truthy v
     then verdict (cleaned raw) "Do Not Send" "Catch-All"
     else verdict (cleaned raw) "Okay to Send" "Accepted",
     {| world := (dns_resolve env (world st) (PyStr.lower d0)).2;
        checked_domains := checked_domains st;
        trace := trace st
                 ++ [EvResolve (PyStr.lower d0)
                       (dns_resolve env (world st) (PyStr.lower d0)).1] |}).
Proof.
  intros Hv Hmx Hnd Hc. rewrite check_email_eq, Hv. cbv zeta.
  rewrite Hmx. cbn [negb]. rewrite bool_decide_eq_false_2 by done.
  rewrite has_mx_record_eq. cbn [snd].
  by rewrite (is_catch_all_cached env (PyStr.lower d0) v).
Qed.

(** X13.  When the MX query of the probe is answered without any record
    (and without an exception), no SMTP server is contacted, [False] is
    stored for the domain and the verdict is Okay to Send / Accepted. *)
Theorem check_email_empty_answer (raw d0 : string) (a : list MxRecord)
    (w1 w2 : W) (st : State W) :
  validate_email env (cleaned raw) = Some d0 ->
  PyStr.lower d0 ∉ DISPOSABLE_DOMAINS g ->
  checked_domains st !! PyStr.lower d0 = None ->
  dns_resolve env (world st) (PyStr.lower d0) = (Some a, w1) ->
  dns_resolve env w1 (PyStr.lower d0) = (Some [], w2) ->
  check_email env g raw st
  = (verdict (cleaned raw) "Okay to Send" "Accepted",
     {| world := w2;
        checked_domains :=
          <[PyStr.lower d0 := PyBool false]> (checked_domains st);
        trace := trace st ++ [EvResolve (PyStr.lower d0) (Some a);
                              EvResolve (PyStr.lower d0) (Some [])] |}).
Proof.
  intros Hv Hnd Hc H1 H2. rewrite check_email_eq, Hv. cbv zeta.
  rewrite has_mx_record_eq, H1. cbn [fst snd negb].
  rewrite bool_decide_eq_true_2 by by eexists. cbn [negb].
  rewrite bool_decide_eq_false_2 by done.
  unfold is_catch_all. cbn [checked_domains]. rewrite Hc.
  unfold is_catch_all_try, bind, resolve, call. cbn [world].
  rewrite H2. cbn. by rewrite <- app_assoc.
Qed.

(** X14.  Checking one address asks the resolver nothing when the validator
    rejects the address, and otherwise once or twice, each time for the
    lower-cased domain; it opens at most one connection and sends at most one
    recipient command. *)
Theorem check_email_cost (raw : string) (st : State W) :
  exists evs : list Event,
    trace (check_email env g raw st).2 = trace st ++ evs
    /\ match validate_email env (cleaned raw) with
       | None => evs = []
       | Some d0 =>
           resolves evs = [PyStr.lower d0]
           \/ resolves evs = [PyStr.lower d0; PyStr.lower d0]
       end
    /\ (length (connects evs) <= 1)%nat
    /\ (length (rcpt_recipients evs) <= 1)%nat.
Proof.
  rewrite check_email_eq.
  destruct (validate_email env (cleaned raw)) as [vd|];
    [|exists []; cbn; split_and!; [by rewrite app_nil_r | done | lia | lia]].
  cbv zeta. set (d := PyStr.lower vd).
  set (st1 := (has_mx_record env d st).2).
  assert (exists a, trace st1 = trace st ++ [EvResolve d a]) as [a Ht1]
    by (eexists; unfold st1; by rewrite has_mx_record_eq).
  assert (checked_domains st1 = checked_domains st) as Hm
    by (unfold st1; by rewrite has_mx_record_eq).
  destruct (negb _); cbn [snd];
    [exists [EvResolve d a]; cbn; split_and!; [done | by left | lia | lia]|].
  destruct (bool_decide _); cbn [snd];
    [exists [EvResolve d a]; cbn; split_and!; [done | by left | lia | lia]|].
  destruct (checked_domains st1 !! d) as [v|] eqn:Hd.
  - rewrite (is_catch_all_cached _ _ _ _ Hd). cbn [snd].
    exists [EvResolve d a]. cbn. split_and!; [done | by left | lia | lia].
  - destruct (is_catch_all_probe env d st1 Hd)
      as (evs & Ht & _ & _ & Hr & Hc & _).
    destruct (is_catch_all_session env d st1 Hd)
      as (evs' & _ & _ & Ht' & _ & _ & _ & _ & _ & _ & Hrc).
    rewrite Ht in Ht'. apply app_inv_head in Ht'. subst evs'.
    exists (EvResolve d a :: evs). split_and!.
    + rewrite Ht, Ht1, <- app_assoc. done.
    + right. cbn. unfold resolves in Hr. by rewrite Hr.
    + cbn. unfold connects in Hc. rewrite Hc.
      destruct (dns_resolve env (world st1) d).1 as [[|? ?]|]; simpl; lia.
    + exact Hrc.
Qed.

End NetworkFacts.

(** ** The pasted text, line by line *)

Section Paste.

(** The line break, a white-space character. *)
Local Abbreviation nl := ("010"%char).

Lemma py_split_nonempty (sep : ascii) (s : string) : py_split sep s ≠ [].
Proof.
  induction s as [|c s IH]; [done|]. cbn [py_split].
  destruct (Ascii.eqb c sep); [done|]. by destruct (py_split sep s).
Qed.

Lemma strip_space_head (c : ascii) (s : string) :
  PyStr.isspace c = true -> PyStr.strip (String c s) = PyStr.strip s.
Proof.
  intros Hc. unfold PyStr.strip, PyStr.strip_with.
  cbn [PyStr.lstrip_with]. by rewrite Hc.
Qed.

(** White space in front of a text does not change the lines kept. *)
Lemma kept_lines_space_head (c : ascii) (s : string) :
  PyStr.isspace c = true ->
  kept_lines (py_split nl (String c s)) = kept_lines (py_split nl s).
Proof.
  intros Hc. cbn [py_split]. destruct (Ascii.eqb c nl) eqn:Hnl; [done|].
  pose proof (py_split_nonempty nl s) as Hne.
  destruct (py_split nl s) as [|piece pieces]; [done|].
  unfold kept_lines. cbn [List.filter]. rewrite (strip_space_head c piece Hc).
  destruct (nonempty (PyStr.strip piece)); cbn [List.map]; [|done].
  by rewrite (strip_space_head c piece Hc).
Qed.

Lemma kept_lines_lstrip (s : string) :
  kept_lines (py_split nl (PyStr.lstrip_with PyStr.isspace s))
  = kept_lines (py_split nl s).
Proof.
  induction s as [|c s IH]; [done|]. cbn [PyStr.lstrip_with].
  destruct (PyStr.isspace c) eqn:Hc; [|done].
  by rewrite IH, kept_lines_space_head.
Qed.

Lemma lstrip_rstrip (p : ascii -> bool) (s : string) :
  PyStr.rstrip_with p (PyStr.lstrip_with p s)
  = PyStr.lstrip_with p (PyStr.rstrip_with p s).
Proof.
  induction s as [|c s IH]; [done|].
  cbn [PyStr.lstrip_with]. destruct (p c) eqn:Hc.
  - cbn [PyStr.rstrip_with].
    destruct (PyStr.rstrip_with p s) as [|c' r] eqn:Hr.
    + rewrite Hc. by rewrite IH.
    + cbn [PyStr.lstrip_with]. rewrite Hc. by rewrite IH.
  - destruct (rstrip_with_head p c s Hc) as [r Hr]. rewrite Hr.
    cbn [PyStr.lstrip_with]. by rewrite Hc.
Qed.

(** Two lines that agree after their right ends are stripped are stripped to
    the same string. *)
Lemma strip_of_rstrip (a b : string) :
  PyStr.rstrip_with PyStr.isspace a = PyStr.rstrip_with PyStr.isspace b ->
  PyStr.strip a = PyStr.strip b.
Proof.
  intros H. unfold PyStr.strip, PyStr.strip_with.
  by rewrite !lstrip_rstrip, H.
Qed.

Lemma kept_lines_cons_rstrip (a b : string) (la lb : list string) :
  PyStr.rstrip_with PyStr.isspace a = PyStr.rstrip_with PyStr.isspace b ->
  kept_lines la = kept_lines lb ->
  kept_lines (a :: la) = kept_lines (b :: lb).
Proof.
  intros Hab Hl. unfold kept_lines in *. cbn [List.filter].
  rewrite (strip_of_rstrip a b Hab).
  destruct (nonempty (PyStr.strip b)); cbn [List.map]; [|done].
  by rewrite (strip_of_rstrip a b Hab), Hl.
Qed.

(** The first pieces of a text and of the text stripped at its right end
    agree after their right ends are stripped, and the other pieces keep the
    same lines. *)
Lemma py_split_rstrip (s : string) :
  exists (a b : string) (la lb : list string),
    py_split nl (PyStr.rstrip_with PyStr.isspace s) = a :: la
    /\ py_split nl s = b :: lb
    /\ PyStr.rstrip_with PyStr.isspace a = PyStr.rstrip_with PyStr.isspace b
    /\ kept_lines la = kept_lines lb.
Proof.
  induction s as [|c s IH]; [by exists "", "", [], []|].
  destruct IH as (a & b & la & lb & Ha & Hb & Hab & Hl).
  cbn [PyStr.rstrip_with py_split]. rewrite Hb.
  destruct (PyStr.rstrip_with PyStr.isspace s) as [|c' r] eqn:Hr.
  - cbn in Ha. injection Ha as <- <-. cbn in Hab.
    assert (kept_lines (b :: lb) = []) as Hblank.
    { rewrite <- (kept_lines_cons_rstrip "" b [] lb); [done|done|done]. }
    destruct (PyStr.isspace c) eqn:Hc.
    + destruct (Ascii.eqb c nl) eqn:Hnl.
      * exists "", "", [], (b :: lb). by rewrite Hblank.
      * exists "", (String c b), [], lb. split_and!; try done.
        cbn [PyStr.rstrip_with]. by rewrite <- Hab, Hc.
    + assert (Ascii.eqb c nl = false) as Hnl.
      { destruct (Ascii.eqb c nl) eqn:Hnl; [|done].
        apply Ascii.eqb_eq in Hnl as ->. discriminate. }
      cbn [py_split]. rewrite Hnl. cbn [py_split].
      exists (String c ""), (String c b), [], lb. split_and!; try done.
      cbn [PyStr.rstrip_with]. by rewrite <- Hab, Hc.
  - remember (String c' r) as t eqn:Ht. cbn [py_split]. rewrite Ha.
    destruct (Ascii.eqb c nl) eqn:Hnl.
    + exists "", "", (a :: la), (b :: lb). split_and!; try done.
      by apply kept_lines_cons_rstrip.
    + exists (String c a), (String c b), la, lb. split_and!; try done.
      cbn [PyStr.rstrip_with]. by rewrite Hab.
Qed.

Lemma kept_lines_rstrip (s : string) :
  kept_lines (py_split nl (PyStr.rstrip_with PyStr.isspace s))
  = kept_lines (py_split nl s).
Proof.
  destruct (py_split_rstrip s) as (a & b & la & lb & -> & -> & Hab & Hl).
  by apply kept_lines_cons_rstrip.
Qed.

(** The paste input in terms of the lines of the text as pasted. *)
Lemma pasted_emails_kept (pasted : string) :
  pasted_emails pasted = kept_lines (py_split nl pasted).
Proof.
  unfold pasted_emails. fold (kept_lines (py_split nl (PyStr.strip pasted))).
  assert (kept_lines (py_split nl (PyStr.strip pasted))
          = kept_lines (py_split nl pasted)) as Heq.
  { unfold PyStr.strip, PyStr.strip_with.
    by rewrite kept_lines_rstrip, kept_lines_lstrip. }
  rewrite Heq. unfold nonempty.
  destruct (String.eqb (PyStr.strip pasted) "") eqn:He; [|done].
  apply String.eqb_eq in He. rewrite <- Heq, He. reflexivity.
Qed.

(** X16.  The outer [strip] of the paste input and the test on it change
    nothing: the addresses are the non-blank lines, stripped, of the text as
    it was pasted; a text of white space alone gives no address. *)
Theorem pasted_emails_lines (pasted : string) :
  pasted_emails pasted = kept_lines (py_split nl pasted).
Proof. apply pasted_emails_kept. Qed.

Lemma py_split_line (sep : ascii) (line : string) :
  PyStr.mem sep line = false -> py_split sep line = [line].
Proof.
  induction line as [|c line IH]; [done|]. cbn [PyStr.mem py_split].
  intros H. apply orb_false_iff in H as [Hc Hl].
  rewrite Ascii.eqb_sym, Hc. by rewrite (IH Hl).
Qed.

Lemma py_split_append (sep : ascii) (line rest : string) :
  PyStr.mem sep line = false ->
  py_split sep (line +:+ String sep rest) = line :: py_split sep rest.
Proof.
  induction line as [|c line IH].
  - intros _. change (EmptyString +:+ String sep rest) with (String sep rest).
    cbn [py_split]. by rewrite Ascii.eqb_refl.
  - cbn [PyStr.mem]. intros H. apply orb_false_iff in H as [Hc Hl].
    change (String c line +:+ String sep rest)
      with (String c (line +:+ String sep rest)).
    cbn [py_split]. rewrite Ascii.eqb_sym, Hc.
    by rewrite (IH Hl).
Qed.

Lemma py_split_join (sep : ascii) (line : string) (lines : list string) :
  Forall (fun l => PyStr.mem sep l = false) (line :: lines) ->
  py_split sep (py_join sep (line :: lines)) = line :: lines.
Proof.
  revert line. induction lines as [|l lines IH]; intros line Hall.
  - apply py_split_line. by inversion Hall.
  - inversion Hall as [|? ? Hline Hrest]; subst.
    change (py_join sep (line :: l :: lines))
      with (line +:+ String sep (py_join sep (l :: lines))).
    by rewrite py_split_append, IH.
Qed.

(** X15.  When lines that hold no line break are pasted one below the
    other, the addresses taken from the text are the lines that are not
    blank, each stripped of the white space at its ends, in their order. *)
Theorem pasted_emails_join (lines : list string) :
  Forall (fun line => PyStr.mem nl line = false) lines ->
  pasted_emails (py_join nl lines)
  = List.map PyStr.strip
      (List.filter (fun line => nonempty (PyStr.strip line)) lines).
Proof.
  intros Hall. rewrite pasted_emails_kept.
  destruct lines as [|line lines]; [reflexivity|].
  by rewrite py_split_join.
Qed.

End Paste.

(** ** The further facts in the scripted world *)

Module MoreRuns.

Import Sample.

Lemma probe_commands_witness :
  exists (evs : list Event) (fake : string),
    trace (is_catch_all (server 550) "strict.example" start).2
    = trace start ++ evs
    /\ String.length fake = 24%nat
    /\ List.map command_of evs
       = [ CmdResolve "strict.example"; CmdConnect "mx2.example";
           CmdHelo "test.local"; CmdMail "test@strict.example";
           CmdRcpt (fake +:+ "@strict.example"); CmdQuit ].
Proof.
  destruct (probe_commands (server 550) "strict.example" start eq_refl)
    as (evs & host & fake & Ht & Hlen & _ & _ & _ & Hfull).
  assert (raised evs = false) as Hok.
  { change (trace start ++ evs) with evs in Ht. rewrite <- Ht.
    vm_compute. reflexivity. }
  destruct (Hfull Hok) as [-> Hcmds].
  by exists evs, fake.
Defined.

Lemma probe_quit_witness :
  exists evs : list Event,
    trace (is_catch_all (scripted (answering None true))
             "dropped.example" start).2
    = trace start ++ evs
    /\ raised (removelast evs) = false
    /\ quit_sent evs = match rcpt_codes evs with [] => false | _ => true end.
Proof.
  destruct (probe_quit (scripted (answering None true)) "dropped.example"
              start eq_refl) as (evs & Ht & _ & Hr & Hq).
  by exists evs.
Defined.

Lemma run_batch_keys_witness :
  is_Some (checked_domains start !! "strict.example")
  \/ exists e d0 : string,
       e ∈ ["user@STRICT.example"]
       /\ validate_email (server 550) (cleaned e) = Some d0
       /\ "strict.example" = PyStr.lower d0
       /\ PyStr.lower "strict.example" = "strict.example"
       /\ "strict.example" ∉ DISPOSABLE_DOMAINS module_globals.
Proof.
  apply (run_batch_keys (server 550) module_globals
           ["user@STRICT.example"] [] start "strict.example").
  eexists. vm_compute. reflexivity.
Defined.

Lemma check_email_cached_witness :
  (check_email (server 550) module_globals "second@CatchAll.example"
     (check_email (server 250) module_globals "first@catchall.example"
        start).2).1
  = verdict "second@CatchAll.example" "Do Not Send" "Catch-All".
Proof.
  rewrite (check_email_cached (server 550) module_globals
             "second@CatchAll.example" "CatchAll.example" (PyStr "maybe")
             (check_email (server 250) module_globals
                "first@catchall.example" start).2
             eq_refl eq_refl ltac:(by vm_compute) ltac:(by vm_compute)).
  reflexivity.
Defined.

Lemma check_email_empty_answer_witness :
  (check_email
     (scripted {| dns := fun _ => Some [];
                  connect_ok := true; helo_ok := true; mail_ok := true;
                  reply := Some 250; quit_ok := true |})
     module_globals "user@empty.example" start).1
  = verdict "user@empty.example" "Okay to Send" "Accepted".
Proof.
  rewrite (check_email_empty_answer
             (scripted {| dns := fun _ => Some [];
                          connect_ok := true; helo_ok := true;
                          mail_ok := true;
                          reply := Some 250; quit_ok := true |})
             module_globals "user@empty.example" "empty.example" [] 1%nat
             2%nat start eq_refl ltac:(by vm_compute) eq_refl eq_refl
             eq_refl).
  reflexivity.
Defined.

Lemma pasted_emails_join_witness :
  pasted_emails
    (py_join "010" ["  first@example.com "; "   "; "second@example.org"])
  = ["first@example.com"; "second@example.org"].
Proof.
  rewrite (pasted_emails_join
             ["  first@example.com "; "   "; "second@example.org"]).
  - reflexivity.
  - repeat constructor.
Defined.

End MoreRuns.
